(** * Neighborhood insights (api/insights.py): model and verification

    A shallow embedding of [src/api/insights.py].  The provider (the
    [googlemaps] client) is an oracle that answers each call from the
    history of the interaction so far; the Python functions thread that
    history explicitly.  Numbers coming from JSON (ratings, coordinates)
    are the rationals they denote, so Python's comparisons on them are
    exact comparisons in [Q]; [print] calls are not modelled. *)

From Stdlib Require Import List String Ascii ZArith QArith Bool Arith Lia.
From Stdlib Require Import Sorting.Sorted Sorting.Permutation DecimalString.
Import ListNotations.

Local Open Scope string_scope.
Local Open Scope Z_scope.
Local Open Scope list_scope.

(** String concatenation, as the f-strings do it. *)
Infix "+++" := String.append (at level 60, right associativity).

(** ** Python values that travel through the pipeline *)

(** The outcome of a call that may raise: [Raise msg] carries [str(e)]. *)
Inductive outcome (A : Type) : Type :=
| Ok (a : A)
| Raise (msg : string).
Arguments Ok {A} a.
Arguments Raise {A} msg.

(** A key of a provider dict: missing, present with JSON null, or present
    with a value.  [d.get(k)] cannot tell the first two apart, [d.get(k, dflt)]
    can. *)
Inductive field (A : Type) : Type :=
| Missing
| Null
| Present (a : A).
Arguments Missing {A}.
Arguments Null {A}.
Arguments Present {A} a.

(** [d.get(k)] *)
Definition get {A} (f : field A) : option A :=
  match f with
  | Present a => Some a
  | _ => None
  end.

(** [d.get(k, dflt)]: the default is used only when the key is missing. *)
Definition get_default {A} (f : field A) (dflt : A) : option A :=
  match f with
  | Missing => Some dflt
  | Null => None
  | Present a => Some a
  end.

(** A raw place of a provider response, typed as the Places API documents
    it: a string name, a numeric rating, an integer number of ratings and a
    list of type strings, each possibly missing or null.  Values of other
    types are outside the model. *)
Record raw_place : Type := mkRaw {
  raw_name : field string;
  raw_rating : field Q;
  raw_user_ratings_total : field Z;
  raw_types : field (list string)
}.

(** An element of a response's ["results"]: a dict, or any other JSON
    value, on which [.get] raises [AttributeError]. *)
Inductive raw_item : Type :=
| RawDict (p : raw_place)
| RawOther.

(** The dict built at lines 259-264: the four keys are always present,
    their values may be [None]. *)
Record place : Type := mkPlace {
  name : option string;
  rating : option Q;
  user_ratings_total : option Z;
  types : option (list string)
}.

(** The dict built by [find_nearest_place] (lines 285-288). *)
Record nearest : Type := mkNearest {
  n_name : option string;
  n_rating : option Q
}.

(** ** [safe_sort_key] and Python's [sorted] *)

(** Lines 296-299. *)
Definition safe_sort_key (x : place) : Q * Z :=
  let rating := match rating x with Some r => r | None => 0%Q end in
  let count := match user_ratings_total x with Some c => c | None => 0 end in
  (rating, count).

(** [<] on the key tuples: Python compares tuples lexicographically, the
    first components that are not [==] decide. *)
Definition key_lt (a b : Q * Z) : bool :=
  match (fst a ?= fst b)%Q with
  | Lt => true
  | Eq => snd a <? snd b
  | Gt => false
  end.

(** [a <= b] on the key tuples, spelled out. *)
Definition key_le (a b : Q * Z) : Prop :=
  (fst a < fst b)%Q \/ ((fst a == fst b)%Q /\ snd a <= snd b).

(** [==] on the key tuples. *)
Definition key_eqb (a b : Q * Z) : bool :=
  Qeq_bool (fst a) (fst b) && (snd a =? snd b).

Section PySorted.
Context {A K : Type} (key : A -> K) (lt : K -> K -> bool).

(** One step of a stable insertion sort that only ever asks [<], as
    [list.sort] does: [x] goes in front of the first element that is not
    smaller than it, hence in front of its equals. *)
Fixpoint insert (x : A) (l : list A) : list A :=
  match l with
  | [] => [x]
  | y :: l' => if lt (key y) (key x) then y :: insert x l' else x :: y :: l'
  end.

(** The stable ascending sort. *)
Fixpoint stable_sort (l : list A) : list A :=
  match l with
  | [] => []
  | x :: l' => insert x (stable_sort l')
  end.

(** [sorted(l, key=key, reverse=reverse)], the Python built-in as the
    language reference describes it: the sort is stable, and with
    [reverse=True] the list is reversed, sorted ascending and reversed
    again, so equal elements keep their original order there too. *)
Definition sorted (reverse : bool) (l : list A) : list A :=
  if reverse then rev (stable_sort (rev l)) else stable_sort l.
End PySorted.

(** The Composite Ranker: [sorted(records, key=safe_sort_key, reverse=True)]. *)
Definition rank (records : list place) : list place :=
  sorted safe_sort_key key_lt true records.

(** [len(l)] for a list. *)
Definition len {A} (l : list A) : nat := List.length l.

(** [records[:n]] *)
Definition slice_to {A} (n : nat) (l : list A) : list A := firstn n l.

(** ** The provider and the interaction trace *)

(** The keyword arguments of [gmaps.places_nearby]. *)
Record nearby_request : Type := mkReq {
  location : Q * Q;
  radius : option Z;
  type : string;
  page_token : option string;
  rank_by : option string
}.

(** A Places response: [next_page_token] is [Some] when the key is in the
    dict; a missing ["results"] reads as the empty list on both paths that
    use it ([.get("results", [])] and [if response.get("results")]). *)
Record response : Type := mkResp {
  results : list raw_item;
  next_page_token : option string
}.

(** One entry of a geocoding result that carries [geometry.location] and
    [formatted_address]; entries lacking them are outside the model. *)
Record geocode_hit : Type := mkHit {
  hit_lat : Q;
  hit_lng : Q;
  hit_formatted_address : string
}.

(** What happened so far: every provider call with its outcome, and every
    [time.sleep]. *)
Inductive event : Type :=
| EvGeocode (address region : string) (out : outcome (list geocode_hit))
| EvNearby (req : nearby_request) (out : outcome response)
| EvSleep (secs : Z).

Definition trace : Type := list event.

(** A [googlemaps.Client]: each method answers from the history so far and
    the arguments, which covers every deterministic provider behaviour
    (flaky, stateful, endlessly paging, ...). *)
Record client : Type := mkClient {
  geocode : trace -> string -> string -> outcome (list geocode_hit);
  places_nearby : trace -> nearby_request -> outcome response
}.

(** The [googlemaps] module: the constructor may raise on a bad key. *)
Record googlemaps : Type := mkGooglemaps {
  Client : string -> outcome client
}.

(** ** Computations: a trace-passing monad with exceptions *)

Definition M (A : Type) : Type := trace -> outcome A * trace.

Definition ret {A} (a : A) : M A := fun h => (Ok a, h).

Definition bind {A B} (c : M A) (k : A -> M B) : M B :=
  fun h =>
    match c h with
    | (Ok a, h') => k a h'
    | (Raise msg, h') => (Raise msg, h')
    end.

Definition raise {A} (msg : string) : M A := fun h => (Raise msg, h).

(** [try: c  except Exception as e: handler e] *)
Definition try_except {A} (c : M A) (handler : string -> M A) : M A :=
  fun h =>
    match c h with
    | (Ok a, h') => (Ok a, h')
    | (Raise msg, h') => handler msg h'
    end.

Declare Scope py_scope.
Delimit Scope py_scope with py.
Notation "x <- c ;; k" := (bind c (fun x => k))
  (at level 61, c at next level, right associativity) : py_scope.
Notation "c ;;; k" := (bind c (fun _ => k))
  (at level 61, right associativity) : py_scope.
Local Open Scope py_scope.

(** [gmaps.geocode(address, region=region)] *)
Definition call_geocode (gmaps : client) (address region : string)
  : M (list geocode_hit) :=
  fun h =>
    let out := geocode gmaps h address region in
    (out, h ++ [EvGeocode address region out]).

(** [gmaps.places_nearby(...)] *)
Definition call_places_nearby (gmaps : client) (req : nearby_request)
  : M response :=
  fun h =>
    let out := places_nearby gmaps h req in
    (out, h ++ [EvNearby req out]).

(** [time.sleep(secs)] *)
Definition sleep (secs : Z) : M unit :=
  fun h => (Ok tt, h ++ [EvSleep secs]).

(** ** [geocode_address] (lines 207-227) *)

Record geo : Type := mkGeo {
  lat : Q;
  lng : Q;
  formatted_address : string;
  source : string
}.

Definition geocode_address (address : string) (gmaps : client)
  (region : string) : M (option geo) :=
  try_except
    (geocode_result <- call_geocode gmaps address region ;;
     match geocode_result with
     | hit :: _ =>
         ret (Some {| lat := hit_lat hit;
                      lng := hit_lng hit;
                      formatted_address := hit_formatted_address hit;
                      source := "google" |})
     | [] => ret None
     end)
    (fun _ => ret None).

(** What [geocode_address] makes of the provider's answer. *)
Definition geo_of_outcome (out : outcome (list geocode_hit)) : option geo :=
  match out with
  | Ok (hit :: _) =>
      Some {| lat := hit_lat hit; lng := hit_lng hit;
              formatted_address := hit_formatted_address hit;
              source := "google" |}
  | _ => None
  end.

(** ** [find_places_nearby] (lines 230-269) *)

(** The body of the loop at lines 258-264, for one element. *)
Definition normalize (item : raw_item) : outcome place :=
  match item with
  | RawDict p =>
      Ok {| name := get (raw_name p);
            rating := get (raw_rating p);
            user_ratings_total := get (raw_user_ratings_total p);
            types := get_default (raw_types p) [] |}
  | RawOther => Raise "AttributeError: object has no attribute 'get'"
  end.

(** The loop at lines 257-264. *)
Fixpoint normalize_all (all_places : list raw_item) : outcome (list place) :=
  match all_places with
  | [] => Ok []
  | item :: rest =>
      match normalize item with
      | Raise msg => Raise msg
      | Ok p =>
          match normalize_all rest with
          | Raise msg => Raise msg
          | Ok places => Ok (p :: places)
          end
      end
  end.

Definition lift {A} (o : outcome A) : M A := fun h => (o, h).

Definition page_request (latitude longitude : Q) (place_type : string)
  (radius : Z) (page_token : option string) : nearby_request :=
  {| location := (latitude, longitude);
     radius := Some radius;
     type := place_type;
     page_token := page_token;
     rank_by := None |}.

(** The [while] loop at lines 246-255.  [remaining] is the loop's variant
    [max_pages - pages]: the test [pages < max_pages] holds exactly when it
    is not zero, and [pages += 1] decrements it. *)
Fixpoint pagination (gmaps : client) (latitude longitude : Q)
  (place_type : string) (radius : Z) (remaining : nat)
  (response : response) (all_places : list raw_item) : M (list raw_item) :=
  match next_page_token response, remaining with
  | Some token, S remaining' =>
      sleep 2 ;;;
      response' <- call_places_nearby gmaps
                     (page_request latitude longitude place_type radius
                        (Some token)) ;;
      pagination gmaps latitude longitude place_type radius remaining'
        response' (all_places ++ results response')
  | _, _ => ret all_places
  end.

Definition find_places_nearby (latitude longitude : Q) (place_type : string)
  (gmaps : client) (radius : Z) (max_pages : Z) : M (list place) :=
  try_except
    (response <- call_places_nearby gmaps
                   (page_request latitude longitude place_type radius None) ;;
     let all_places := [] ++ results response in
     let pages := 1 in
     all_places <- pagination gmaps latitude longitude place_type radius
                     (Z.to_nat (max_pages - pages)) response all_places ;;
     places <- lift (normalize_all all_places) ;;
     ret places)
    (fun _ => ret []).

(** ** [find_nearest_place] (lines 272-293) *)

Definition find_nearest_place (latitude longitude : Q) (place_type : string)
  (gmaps : client) : M (option nearest) :=
  try_except
    (response <- call_places_nearby gmaps
                   {| location := (latitude, longitude);
                      radius := None;
                      type := place_type;
                      page_token := None;
                      rank_by := Some "distance" |} ;;
     match results response with
     | RawDict nearest_place :: _ =>
         ret (Some {| n_name := get (raw_name nearest_place);
                      n_rating := get (raw_rating nearest_place) |})
     | RawOther :: _ => raise "AttributeError: object has no attribute 'get'"
     | [] => ret None
     end)
    (fun _ => ret None).

(** ** The report built by [get_neighborhood_insights] *)

(** [{"count": ..., "top": ...}] *)
Record section : Type := mkSection {
  count : nat;
  top : list place
}.

(** [{"count": ..., "nearest": ..., "top": ...}] *)
Record hospital_section : Type := mkHospitalSection {
  h_count : nat;
  h_nearest : option string;
  h_top : list place
}.

(** [{"count": ..., "nearest": ..., "alternatives": ...}] *)
Record subway_section : Type := mkSubwaySection {
  s_count : nat;
  s_nearest : option string;
  s_alternatives : list place
}.

Record social_life_t : Type := mkSocial {
  cafes : section;
  shopping_malls : section;
  parks : section;
  gyms : section
}.

Record family_life_t : Type := mkFamily {
  schools : section;
  hospitals : hospital_section;
  pharmacies : section
}.

Record transport_t : Type := mkTransport {
  subway : subway_section
}.

Record highlights_t : Type := mkHighlights {
  cafes_top : list (option string);
  schools_top : list (option string);
  malls_top : list (option string);
  nearest_hospital : option string;
  nearest_subway : option string
}.

Record summary_t : Type := mkSummary {
  headline : string;
  highlights : highlights_t
}.

(** The [insights] dict (["ok": True]). *)
Record insights : Type := mkInsights {
  i_query : string;
  i_address : string;
  i_coordinates : Q * Q;
  i_source : string;
  social_life : social_life_t;
  family_life : family_life_t;
  transport : transport_t;
  summary : summary_t
}.

(** What [get_neighborhood_insights] returns: the failure dict
    [{"ok": False, "error": ..., "query": ...}] or the insights. *)
Inductive report : Type :=
| Failure (error query : string)
| Success (ins : insights).

(** [default_cfg] (lines 102-114). *)
Record radii_t : Type := mkRadii {
  r_cafe : Z;
  r_school : Z;
  r_hospital : Z;
  r_pharmacy : Z;
  r_park : Z;
  r_gym : Z;
  r_shopping_mall : Z;
  r_subway_station : Z
}.

Record cfg : Type := mkCfg {
  radii : radii_t;
  top_n : nat
}.

Definition default_cfg : cfg :=
  {| radii := {| r_cafe := 1000;
                 r_school := 8000;
                 r_hospital := 5000;
                 r_pharmacy := 2000;
                 r_park := 1500;
                 r_gym := 2000;
                 r_shopping_mall := 5000;
                 r_subway_station := 2000 |};
     top_n := 5 |}.

(** The default of [find_places_nearby]'s [max_pages]. *)
Definition default_max_pages : Z := 2.

(** [tag in l] for a list of strings. *)
Definition mem (tag : string) (l : list string) : bool :=
  existsb (String.eqb tag) l.

(** ["shopping_mall" in (m.get("types") or [])] (line 148). *)
Definition is_mall (m : place) : bool :=
  mem "shopping_mall" (match types m with Some l => l | None => [] end).

(** [str(n)] for a length. *)
Definition str_of_nat (n : nat) : string :=
  NilEmpty.string_of_uint (Nat.to_uint n).

(** [summarize_list] (lines 187-188); every element is a dict with the key
    ["name"], so the default [""] is never used. *)
Definition summarize_list (lst : list place) (top : nat) : list (option string) :=
  map name (slice_to top lst).

(** [d.get("name") if d else None] (lines 170, 182, 199, 200). *)
Definition name_of (d : option nearest) : option string :=
  match d with
  | Some n => n_name n
  | None => None
  end.

(** Lines 89-204. *)
Definition get_neighborhood_insights (googlemaps : googlemaps)
  (address api_key : string) : M report :=
  match Client googlemaps api_key with
  | Raise e =>
      ret (Failure ("Failed to initialize Google Maps client: " +++ e) address)
  | Ok gmaps =>
      geo <- geocode_address address gmaps "tr" ;;
      match geo with
      | None =>
          let msg := "Could not geocode the address: " +++ address in
          ret (Failure msg address)
      | Some geo =>
          let lat := lat geo in
          let lng := lng geo in
          let formatted := formatted_address geo in
          let top_n := top_n default_cfg in
          let radii := radii default_cfg in
          (* social life *)
          cafes <- find_places_nearby lat lng "cafe" gmaps (r_cafe radii)
                     default_max_pages ;;
          let cafes_sorted := sorted safe_sort_key key_lt true cafes in
          let s_cafes := {| count := len cafes;
                            top := slice_to top_n cafes_sorted |} in
          malls <- find_places_nearby lat lng "shopping_mall" gmaps
                     (r_shopping_mall radii) default_max_pages ;;
          let malls_filtered := filter is_mall malls in
          let malls_sorted := sorted safe_sort_key key_lt true malls_filtered in
          let s_malls := {| count := len malls_filtered;
                            top := slice_to top_n malls_sorted |} in
          parks <- find_places_nearby lat lng "park" gmaps (r_park radii)
                     default_max_pages ;;
          let parks_sorted := sorted safe_sort_key key_lt true parks in
          let s_parks := {| count := len parks;
                            top := slice_to top_n parks_sorted |} in
          gyms <- find_places_nearby lat lng "gym" gmaps (r_gym radii)
                    default_max_pages ;;
          let gyms_sorted := sorted safe_sort_key key_lt true gyms in
          let s_gyms := {| count := len gyms;
                           top := slice_to top_n gyms_sorted |} in
          (* family life *)
          schools <- find_places_nearby lat lng "school" gmaps (r_school radii)
                       default_max_pages ;;
          let schools_sorted := sorted safe_sort_key key_lt true schools in
          let s_schools := {| count := len schools;
                              top := slice_to top_n schools_sorted |} in
          hospitals <- find_places_nearby lat lng "hospital" gmaps
                         (r_hospital radii) default_max_pages ;;
          hospital_nearest <- find_nearest_place lat lng "hospital" gmaps ;;
          let hospitals_sorted := sorted safe_sort_key key_lt true hospitals in
          let s_hospitals := {| h_count := len hospitals;
                                h_nearest := name_of hospital_nearest;
                                h_top := slice_to top_n hospitals_sorted |} in
          pharmacies <- find_places_nearby lat lng "pharmacy" gmaps
                          (r_pharmacy radii) default_max_pages ;;
          let s_pharmacies := {| count := len pharmacies;
                                 top := slice_to top_n pharmacies |} in
          (* transport *)
          metros <- find_places_nearby lat lng "subway_station" gmaps
                      (r_subway_station radii) default_max_pages ;;
          metro_nearest <- find_nearest_place lat lng "subway_station" gmaps ;;
          let s_subway := {| s_count := len metros;
                             s_nearest := name_of metro_nearest;
                             s_alternatives := slice_to top_n metros |} in
          (* summary *)
          let summary :=
            {| headline :=
                 formatted +++ ": " +++ str_of_nat (len cafes) +++ " cafes, "
                 +++ str_of_nat (len parks) +++ " parks, "
                 +++ str_of_nat (len gyms) +++ " gyms, "
                 +++ str_of_nat (len schools) +++ " schools, "
                 +++ str_of_nat (len hospitals) +++ " hospitals, "
                 +++ str_of_nat (len malls_filtered) +++ " malls nearby.";
               highlights :=
                 {| cafes_top := summarize_list cafes_sorted 3;
                    schools_top := summarize_list schools_sorted 3;
                    malls_top := summarize_list malls_sorted 3;
                    nearest_hospital := name_of hospital_nearest;
                    nearest_subway := name_of metro_nearest |} |} in
          ret (Success
                 {| i_query := address;
                    i_address := formatted;
                    i_coordinates := (lat, lng);
                    i_source := source geo;
                    social_life := {| cafes := s_cafes;
                                      shopping_malls := s_malls;
                                      parks := s_parks;
                                      gyms := s_gyms |};
                    family_life := {| schools := s_schools;
                                      hospitals := s_hospitals;
                                      pharmacies := s_pharmacies |};
                    transport := {| subway := s_subway |};
                    summary := summary |})
      end
  end.

(** ** The value handed to [json.dumps] *)

#[local] Unset Elimination Schemes.
Inductive json : Type :=
| JNull
| JBool (b : bool)
| JInt (z : Z)
| JFloat (q : Q)
| JStr (s : string)
| JList (l : list json)
| JDict (kvs : list (string * json)).
#[local] Set Elimination Schemes.

Definition json_opt {A} (f : A -> json) (o : option A) : json :=
  match o with
  | Some a => f a
  | None => JNull
  end.

Definition place_to_json (p : place) : json :=
  JDict [("name", json_opt JStr (name p));
         ("rating", json_opt JFloat (rating p));
         ("user_ratings_total", json_opt JInt (user_ratings_total p));
         ("types", json_opt (fun l => JList (map JStr l)) (types p))].

Definition section_to_json (s : section) : json :=
  JDict [("count", JInt (Z.of_nat (count s)));
         ("top", JList (map place_to_json (top s)))].

Definition hospital_section_to_json (s : hospital_section) : json :=
  JDict [("count", JInt (Z.of_nat (h_count s)));
         ("nearest", json_opt JStr (h_nearest s));
         ("top", JList (map place_to_json (h_top s)))].

Definition subway_section_to_json (s : subway_section) : json :=
  JDict [("count", JInt (Z.of_nat (s_count s)));
         ("nearest", json_opt JStr (s_nearest s));
         ("alternatives", JList (map place_to_json (s_alternatives s)))].

Definition names_to_json (l : list (option string)) : json :=
  JList (map (json_opt JStr) l).

Definition insights_to_json (i : insights) : json :=
  JDict
    [("ok", JBool true);
     ("query", JStr (i_query i));
     ("address", JStr (i_address i));
     ("coordinates", JDict [("lat", JFloat (fst (i_coordinates i)));
                            ("lng", JFloat (snd (i_coordinates i)))]);
     ("source", JStr (i_source i));
     ("social_life",
       JDict [("cafes", section_to_json (cafes (social_life i)));
              ("shopping_malls", section_to_json (shopping_malls (social_life i)));
              ("parks", section_to_json (parks (social_life i)));
              ("gyms", section_to_json (gyms (social_life i)))]);
     ("family_life",
       JDict [("schools", section_to_json (schools (family_life i)));
              ("hospitals", hospital_section_to_json (hospitals (family_life i)));
              ("pharmacies", section_to_json (pharmacies (family_life i)))]);
     ("transport",
       JDict [("subway", subway_section_to_json (subway (transport i)))]);
     ("summary",
       JDict [("headline", JStr (headline (summary i)));
              ("highlights",
                JDict [("cafes_top", names_to_json (cafes_top (highlights (summary i))));
                       ("schools_top", names_to_json (schools_top (highlights (summary i))));
                       ("malls_top", names_to_json (malls_top (highlights (summary i))));
                       ("nearest_hospital",
                         json_opt JStr (nearest_hospital (highlights (summary i))));
                       ("nearest_subway",
                         json_opt JStr (nearest_subway (highlights (summary i))))])])].

Definition report_to_json (r : report) : json :=
  match r with
  | Failure error query =>
      JDict [("ok", JBool false); ("error", JStr error); ("query", JStr query)]
  | Success i => insights_to_json i
  end.

(** [d[k]] on a rendered dict. *)
Fixpoint assoc (k : string) (kvs : list (string * json)) : option json :=
  match kvs with
  | [] => None
  | (k', v) :: rest => if String.eqb k k' then Some v else assoc k rest
  end.

Definition json_get (k : string) (j : json) : option json :=
  match j with
  | JDict kvs => assoc k kvs
  | _ => None
  end.

(** ** [handler] (lines 8-86) *)

(** What [request.get_json()] returns: a dict, of which only ["address"]
    is read (a string per the interface, possibly missing or null; an
    address of another JSON type is outside the model), or a value without
    [.get], on which line 55 raises the given [AttributeError]. *)
Inductive request_data : Type :=
| DataDict (address : field string)
| DataOther (attribute_error : string).

Record request : Type := mkRequest {
  method : string;
  get_json : outcome request_data
}.

Record http_response : Type := mkHttp {
  statusCode : Z;
  headers : list (string * string);
  body : json
}.

Definition cors_json_headers : list (string * string) :=
  [("Access-Control-Allow-Origin", "*"); ("Content-Type", "application/json")].

Definition error_response (status : Z) (msg : string) : http_response :=
  {| statusCode := status;
     headers := cors_json_headers;
     body := JDict [("ok", JBool false); ("error", JStr msg)] |}.

(** [not s] for an optional string: [None] and [""] are falsy. *)
Definition falsy (s : option string) : bool :=
  match s with
  | None => true
  | Some s => String.eqb s ""
  end.

(** [data.get("address")] *)
Definition data_get_address (data : request_data) : M (option string) :=
  match data with
  | DataDict address => ret (get address)
  | DataOther attribute_error => raise attribute_error
  end.

(** [environ_key] is [os.environ.get("GOOGLE_MAPS_API_KEY")]. *)
Definition handler (googlemaps : googlemaps) (environ_key : option string)
  (request : request) : M http_response :=
  try_except
    (if String.eqb (method request) "OPTIONS" then
       ret {| statusCode := 200;
              headers := [("Access-Control-Allow-Origin", "*");
                          ("Access-Control-Allow-Methods", "POST, OPTIONS");
                          ("Access-Control-Allow-Headers", "Content-Type");
                          ("Content-Type", "application/json")];
              body := JDict [("ok", JBool true)] |}
     else if negb (String.eqb (method request) "POST") then
       ret (error_response 405 "Method not allowed. Use POST.")
     else
       let api_key := environ_key in
       if falsy api_key then
         ret (error_response 500 "GOOGLE_MAPS_API_KEY not set")
       else
         match get_json request with
         | Raise _ => ret (error_response 400 "Invalid JSON")
         | Ok data =>
             address <- data_get_address data ;;
             if falsy address then
               ret (error_response 400 "Address is required")
             else
               result <- get_neighborhood_insights googlemaps
                           (match address with Some a => a | None => "" end)
                           (match api_key with Some k => k | None => "" end) ;;
               ret {| statusCode := 200;
                      headers := cors_json_headers;
                      body := report_to_json result |}
         end)
    (fun e => ret (error_response 500 e)).

(** ** Vocabulary of the specification *)

(** The eight amenity categories of the category plan. *)
Inductive category : Type :=
| Cafe | ShoppingMall | Park | Gym | School | Hospital | Pharmacy | SubwayStation.

(** The [type=] string each category is queried with. *)
Definition place_type_of (c : category) : string :=
  match c with
  | Cafe => "cafe"
  | ShoppingMall => "shopping_mall"
  | Park => "park"
  | Gym => "gym"
  | School => "school"
  | Hospital => "hospital"
  | Pharmacy => "pharmacy"
  | SubwayStation => "subway_station"
  end.

(** The ["count"] of a category's section. *)
Definition section_count (i : insights) (c : category) : nat :=
  match c with
  | Cafe => count (cafes (social_life i))
  | ShoppingMall => count (shopping_malls (social_life i))
  | Park => count (parks (social_life i))
  | Gym => count (gyms (social_life i))
  | School => count (schools (family_life i))
  | Hospital => h_count (hospitals (family_life i))
  | Pharmacy => count (pharmacies (family_life i))
  | SubwayStation => s_count (subway (transport i))
  end.

(** The record list of a category's section: ["top"], and ["alternatives"]
    for the subway. *)
Definition section_items (i : insights) (c : category) : list place :=
  match c with
  | Cafe => top (cafes (social_life i))
  | ShoppingMall => top (shopping_malls (social_life i))
  | Park => top (parks (social_life i))
  | Gym => top (gyms (social_life i))
  | School => top (schools (family_life i))
  | Hospital => h_top (hospitals (family_life i))
  | Pharmacy => top (pharmacies (family_life i))
  | SubwayStation => s_alternatives (subway (transport i))
  end.

(** The whole section of a category. *)
Inductive any_section : Type :=
| PlainSection (s : section)
| HospitalSection (s : hospital_section)
| SubwaySection (s : subway_section).

Definition section_of (i : insights) (c : category) : any_section :=
  match c with
  | Cafe => PlainSection (cafes (social_life i))
  | ShoppingMall => PlainSection (shopping_malls (social_life i))
  | Park => PlainSection (parks (social_life i))
  | Gym => PlainSection (gyms (social_life i))
  | School => PlainSection (schools (family_life i))
  | Hospital => HospitalSection (hospitals (family_life i))
  | Pharmacy => PlainSection (pharmacies (family_life i))
  | SubwayStation => SubwaySection (subway (transport i))
  end.

(** The categories ranked by the Composite Ranker before truncation. *)
Definition is_ranked (c : category) : bool :=
  match c with
  | Pharmacy | SubwayStation => false
  | _ => true
  end.

(** The filter applied to a category's result list: the mall tag filter
    for [ShoppingMall], nothing elsewhere. *)
Definition post_filter (c : category) (l : list place) : list place :=
  match c with
  | ShoppingMall => filter is_mall l
  | _ => l
  end.

(** *** Reading the trace *)

Definition is_none {A} (o : option A) : bool :=
  match o with
  | None => true
  | Some _ => false
  end.

(** The requests of the proximity search ([radius=], no [rank_by]) for the
    type [t] in a trace, in the order they were issued, with their outcomes. *)
Definition proximity_calls (t : string) (h : trace)
  : list (nearby_request * outcome response) :=
  flat_map (fun e =>
              match e with
              | EvNearby req out =>
                  if String.eqb (type req) t && is_none (rank_by req)
                  then [(req, out)] else []
              | _ => []
              end) h.

(** The requests of the nearest-of-type search ([rank_by=]) for [t]. *)
Definition nearest_calls (t : string) (h : trace)
  : list (nearby_request * outcome response) :=
  flat_map (fun e =>
              match e with
              | EvNearby req out =>
                  if String.eqb (type req) t && negb (is_none (rank_by req))
                  then [(req, out)] else []
              | _ => []
              end) h.

(** All [places_nearby] requests of a trace. *)
Definition nearby_calls (h : trace) : list (nearby_request * outcome response) :=
  flat_map (fun e =>
              match e with
              | EvNearby req out => [(req, out)]
              | _ => []
              end) h.

(** The events a proximity search of type [t] leaves in the trace. *)
Definition proximity_event (t : string) (e : event) : Prop :=
  match e with
  | EvSleep _ => True
  | EvNearby req _ => type req = t /\ rank_by req = None
  | EvGeocode _ _ _ => False
  end.

(** The event a nearest-of-type search of type [t] leaves in the trace. *)
Definition nearest_event (t : string) (e : event) : Prop :=
  match e with
  | EvNearby req _ => type req = t /\ rank_by req = Some "distance"
  | _ => False
  end.

(** The events of the searches: everything but geocoding. *)
Definition query_event (e : event) : Prop :=
  match e with
  | EvGeocode _ _ _ => False
  | _ => True
  end.

(** Some call of the list raised. *)
Definition raised (calls : list (nearby_request * outcome response)) : bool :=
  existsb (fun c => match snd c with Raise _ => true | Ok _ => false end) calls.

(** The raw results the calls delivered, in arrival order. *)
Definition payload (calls : list (nearby_request * outcome response))
  : list raw_item :=
  flat_map (fun c => match snd c with Ok r => results r | Raise _ => [] end) calls.

(** The result list the proximity search of type [t] obtained from the
    provider in the trace: the normalized payload in arrival order, and the
    empty list when a call raised or an element was not a dict. *)
Definition provider_list (t : string) (h : trace) : list place :=
  let calls := proximity_calls t h in
  if raised calls then []
  else match normalize_all (payload calls) with
       | Ok places => places
       | Raise _ => []
       end.

(** The first request carries no token, and every later one carries the
    [next_page_token] of the response just before it. *)
Fixpoint follow_ups (prev : outcome response)
  (calls : list (nearby_request * outcome response)) : Prop :=
  match calls with
  | [] => True
  | (req, out) :: rest =>
      (exists resp token,
          prev = Ok resp /\ next_page_token resp = Some token /\
          page_token req = Some token) /\
      follow_ups out rest
  end.

Definition paged (calls : list (nearby_request * outcome response)) : Prop :=
  match calls with
  | [] => False
  | (req, out) :: rest => page_token req = None /\ follow_ups out rest
  end.

(** *** Two providers that differ on one category only *)

(** What the history looks like to the other categories: the requests of
    type [c] and the sleeps are dropped. *)
Definition erase (c : string) (h : trace) : trace :=
  filter (fun e =>
            match e with
            | EvNearby req _ => negb (String.eqb (type req) c)
            | EvSleep _ => false
            | EvGeocode _ _ _ => true
            end) h.

(** [g1] and [g2] answer alike whatever is not a request of type [c], on
    histories that differ only in requests of type [c]. *)
Definition agree_outside (c : string) (g1 g2 : client) : Prop :=
  (forall h1 h2 address region,
      erase c h1 = erase c h2 ->
      geocode g1 h1 address region = geocode g2 h2 address region) /\
  (forall h1 h2 req,
      type req <> c ->
      erase c h1 = erase c h2 ->
      places_nearby g1 h1 req = places_nearby g2 h2 req).

(** [sub] occurs in [s]. *)
Definition contains (s sub : string) : Prop :=
  exists prefix suffix, s = prefix +++ sub +++ suffix.

(** The record carries the category tag [tag]. *)
Definition has_tag (tag : string) (m : place) : Prop :=
  exists l, types m = Some l /\ In tag l.

(** *** The PlaceRecord shape *)

Definition string_list_eqb (a b : list string) : bool :=
  if list_eq_dec string_dec a b then true else false.

(** A rendered PlaceRecord: a dict with the four keys of the normalizer. *)
Definition is_place_record (j : json) : bool :=
  match j with
  | JDict kvs =>
      string_list_eqb (map fst kvs)
        ["name"; "rating"; "user_ratings_total"; "types"]
  | _ => false
  end.

Definition is_absent (j : json) : bool :=
  match j with
  | JNull => true
  | _ => false
  end.

(** *** The queries of one run, and the report built from them *)

(** The values bound at lines 143, 147, 152, 156, 161, 165, 166, 174, 178
    and 179. *)
Record queries : Type := mkQueries {
  q_cafes : list place;
  q_malls : list place;
  q_parks : list place;
  q_gyms : list place;
  q_schools : list place;
  q_hospitals : list place;
  q_hospital_nearest : option nearest;
  q_pharmacies : list place;
  q_metros : list place;
  q_metro_nearest : option nearest
}.

(** The ten searches of [get_neighborhood_insights], in its order. *)
Definition run_queries (gmaps : client) (lat lng : Q) : M queries :=
  let radii := radii default_cfg in
  cafes <- find_places_nearby lat lng "cafe" gmaps (r_cafe radii)
             default_max_pages ;;
  malls <- find_places_nearby lat lng "shopping_mall" gmaps
             (r_shopping_mall radii) default_max_pages ;;
  parks <- find_places_nearby lat lng "park" gmaps (r_park radii)
             default_max_pages ;;
  gyms <- find_places_nearby lat lng "gym" gmaps (r_gym radii)
            default_max_pages ;;
  schools <- find_places_nearby lat lng "school" gmaps (r_school radii)
               default_max_pages ;;
  hospitals <- find_places_nearby lat lng "hospital" gmaps (r_hospital radii)
                 default_max_pages ;;
  hospital_nearest <- find_nearest_place lat lng "hospital" gmaps ;;
  pharmacies <- find_places_nearby lat lng "pharmacy" gmaps (r_pharmacy radii)
                  default_max_pages ;;
  metros <- find_places_nearby lat lng "subway_station" gmaps
              (r_subway_station radii) default_max_pages ;;
  metro_nearest <- find_nearest_place lat lng "subway_station" gmaps ;;
  ret {| q_cafes := cafes; q_malls := malls; q_parks := parks;
         q_gyms := gyms; q_schools := schools; q_hospitals := hospitals;
         q_hospital_nearest := hospital_nearest; q_pharmacies := pharmacies;
         q_metros := metros; q_metro_nearest := metro_nearest |}.

(** The report [get_neighborhood_insights] builds from those values. *)
Definition assemble (address : string) (geo : geo) (q : queries) : insights :=
  let top_n := top_n default_cfg in
  let malls_filtered := filter is_mall (q_malls q) in
  {| i_query := address;
     i_address := formatted_address geo;
     i_coordinates := (lat geo, lng geo);
     i_source := source geo;
     social_life :=
       {| cafes := {| count := len (q_cafes q);
                      top := slice_to top_n (rank (q_cafes q)) |};
          shopping_malls := {| count := len malls_filtered;
                               top := slice_to top_n (rank malls_filtered) |};
          parks := {| count := len (q_parks q);
                      top := slice_to top_n (rank (q_parks q)) |};
          gyms := {| count := len (q_gyms q);
                     top := slice_to top_n (rank (q_gyms q)) |} |};
     family_life :=
       {| schools := {| count := len (q_schools q);
                        top := slice_to top_n (rank (q_schools q)) |};
          hospitals := {| h_count := len (q_hospitals q);
                          h_nearest := name_of (q_hospital_nearest q);
                          h_top := slice_to top_n (rank (q_hospitals q)) |};
          pharmacies := {| count := len (q_pharmacies q);
                           top := slice_to top_n (q_pharmacies q) |} |};
     transport :=
       {| subway := {| s_count := len (q_metros q);
                       s_nearest := name_of (q_metro_nearest q);
                       s_alternatives := slice_to top_n (q_metros q) |} |};
     summary :=
       {| headline :=
            formatted_address geo +++ ": "
            +++ str_of_nat (len (q_cafes q)) +++ " cafes, "
            +++ str_of_nat (len (q_parks q)) +++ " parks, "
            +++ str_of_nat (len (q_gyms q)) +++ " gyms, "
            +++ str_of_nat (len (q_schools q)) +++ " schools, "
            +++ str_of_nat (len (q_hospitals q)) +++ " hospitals, "
            +++ str_of_nat (len malls_filtered) +++ " malls nearby.";
          highlights :=
            {| cafes_top := summarize_list (rank (q_cafes q)) 3;
               schools_top := summarize_list (rank (q_schools q)) 3;
               malls_top := summarize_list (rank malls_filtered) 3;
               nearest_hospital := name_of (q_hospital_nearest q);
               nearest_subway := name_of (q_metro_nearest q) |} |} |}.

(** What the nearest-of-type search of type [t] obtained in the trace: the
    name and rating of the first result of its response. *)
Definition nearest_result (t : string) (h : trace) : option nearest :=
  match nearest_calls t h with
  | (_, Ok response) :: _ =>
      match results response with
      | RawDict p :: _ =>
          Some {| n_name := get (raw_name p); n_rating := get (raw_rating p) |}
      | _ => None
      end
  | _ => None
  end.

(** The ten results of a run, read off its trace. *)
Definition queries_of_trace (h : trace) : queries :=
  {| q_cafes := provider_list "cafe" h;
     q_malls := provider_list "shopping_mall" h;
     q_parks := provider_list "park" h;
     q_gyms := provider_list "gym" h;
     q_schools := provider_list "school" h;
     q_hospitals := provider_list "hospital" h;
     q_hospital_nearest := nearest_result "hospital" h;
     q_pharmacies := provider_list "pharmacy" h;
     q_metros := provider_list "subway_station" h;
     q_metro_nearest := nearest_result "subway_station" h |}.

(** ** Sample providers *)

Definition raw (n : string) (r : field Q) (total : field Z)
  (ts : field (list string)) : raw_item :=
  RawDict {| raw_name := Present n; raw_rating := r;
             raw_user_ratings_total := total; raw_types := ts |}.

(** A page of three places, out of rank order, one without rating. *)
Definition sample_page : response :=
  {| results := [raw "Alfa" (Present (4 # 1)%Q) (Present 12) (Present ["cafe"]);
                 raw "Beta" Missing Missing Missing;
                 raw "Gama" (Present (9 # 2)%Q) (Present 7) (Present ["cafe"; "food"])];
     next_page_token := Some "more" |}.

(** A mall and a hotel that the provider lists under the mall query. *)
Definition mall_page : response :=
  {| results := [raw "Grand Hotel" (Present (5 # 1)%Q) (Present 90) (Present ["lodging"]);
                 raw "City Mall" (Present (4 # 1)%Q) (Present 50)
                   (Present ["shopping_mall"; "store"])];
     next_page_token := None |}.

Definition nearest_page : response :=
  {| results := [raw "Nearest One" (Present (3 # 1)%Q) Missing Missing];
     next_page_token := None |}.

(** A provider that does not look at the history and never stops paging. *)
Definition sample_client : client :=
  {| geocode := fun _ address _ =>
       if String.eqb address "Atlantis" then Ok []
       else Ok [{| hit_lat := (41 # 1)%Q; hit_lng := (29 # 1)%Q;
                   hit_formatted_address := "Kadikoy, Istanbul" |}];
     places_nearby := fun _ req =>
       match rank_by req with
       | Some _ => Ok nearest_page
       | None =>
           if String.eqb (type req) "shopping_mall" then Ok mall_page
           else Ok sample_page
       end |}.

(** [g], except that every request of type [c] raises. *)
Definition failing (c : string) (g : client) : client :=
  {| geocode := geocode g;
     places_nearby := fun h req =>
       if String.eqb (type req) c then Raise "timeout"
       else places_nearby g h req |}.

Definition module_of (g : client) : googlemaps :=
  {| Client := fun _ => Ok g |}.

Definition sample_insights (g : client) : outcome report * trace :=
  get_neighborhood_insights (module_of g) "Kadikoy" "AIza-key" [].

(** The sample provider with the hospital search down. *)
Definition hospital_down : client := failing "hospital" sample_client.

Definition sample_trace (g : client) : trace := snd (sample_insights g).

Definition sample_geo : geo :=
  {| lat := (41 # 1)%Q; lng := (29 # 1)%Q;
     formatted_address := "Kadikoy, Istanbul"; source := "google" |}.

(** The report of the sample run against [g]. *)
Definition sample_report (g : client) : insights :=
  assemble "Kadikoy" sample_geo (queries_of_trace (sample_trace g)).

(** The unrated place of [sample_page], normalized. *)
Definition beta : place :=
  {| name := Some "Beta"; rating := None; user_ratings_total := None;
     types := Some [] |}.

(** ** Vocabulary for the rest of the code *)

(** The request belongs to the proximity search at [(lat, lng)] for the
    type [t] within [r] metres. *)
Definition same_search (lat lng : Q) (t : string) (r : Z)
  (req : nearby_request) : Prop :=
  location req = (lat, lng) /\ radius req = Some r /\ type req = t /\
  rank_by req = None.

(** A trace made of follow-up steps only: a sleep of two seconds, then a
    request, again and again. *)
Fixpoint follow_up_blocks (h : trace) : Prop :=
  match h with
  | [] => True
  | EvSleep secs :: EvNearby _ _ :: rest => secs = 2 /\ follow_up_blocks rest
  | _ => False
  end.

(** The paging came to its natural end: the last answer raised or carried
    no token. *)
Definition exhausted (last_outcome : outcome response) : Prop :=
  match last_outcome with
  | Ok response => next_page_token response = None
  | Raise _ => True
  end.

(** The seconds slept in a trace. *)
Definition sleep_total (h : trace) : Z :=
  fold_right (fun e acc => match e with EvSleep secs => secs + acc | _ => acc end)
    0 h.

(** The response is one the handler can give: one of its four status codes,
    the CORS and JSON headers, and a body with a boolean ["ok"] that is true
    only under status 200. *)
Definition well_formed_response (resp : http_response) : Prop :=
  In (statusCode resp) [200; 400; 405; 500] /\
  In ("Access-Control-Allow-Origin", "*") (headers resp) /\
  In ("Content-Type", "application/json") (headers resp) /\
  exists ok, json_get "ok" (body resp) = Some (JBool ok) /\
             (ok = true -> statusCode resp = 200).

(** The radius the category plan gives each category. *)
Definition radius_of (c : category) : Z :=
  match c with
  | Cafe => r_cafe (radii default_cfg)
  | ShoppingMall => r_shopping_mall (radii default_cfg)
  | Park => r_park (radii default_cfg)
  | Gym => r_gym (radii default_cfg)
  | School => r_school (radii default_cfg)
  | Hospital => r_hospital (radii default_cfg)
  | Pharmacy => r_pharmacy (radii default_cfg)
  | SubwayStation => r_subway_station (radii default_cfg)
  end.

(** A request of the plan at [(lat, lng)]: a proximity request of a
    category within its radius, or the distance-ranked request for the
    hospital or the subway station. *)
Definition planned_request (lat lng : Q) (req : nearby_request) : Prop :=
  location req = (lat, lng) /\
  ((rank_by req = None /\
    exists c, type req = place_type_of c /\ radius req = Some (radius_of c)) \/
   (rank_by req = Some "distance" /\ radius req = None /\
    page_token req = None /\
    (type req = "hospital" \/ type req = "subway_station"))).

(** The geocoding calls of a trace, with their address and region. *)
Definition geocode_calls (h : trace) : list (string * string) :=
  flat_map (fun e =>
              match e with
              | EvGeocode address region _ => [(address, region)]
              | _ => []
              end) h.

(** The trace of some searches at [(lat, lng)]: between [lo] and [hi]
    planned requests, no geocoding, and two seconds of sleep for each
    request beyond the first [lo]. *)
Definition searches (lat lng : Q) (lo hi : nat) (seg : trace) : Prop :=
  geocode_calls seg = [] /\
  (lo <= len (nearby_calls seg) <= hi)%nat /\
  sleep_total seg = 2 * (Z.of_nat (len (nearby_calls seg)) - Z.of_nat lo) /\
  Forall (fun c => planned_request lat lng (fst c)) (nearby_calls seg).

(** A page with an element that is not a dict. *)
Definition junk_page : response :=
  {| results := [raw "Alfa" (Present (4 # 1)%Q) (Present 12) (Present ["cafe"]);
                 RawOther];
     next_page_token := None |}.

(** A provider whose pages all carry such an element. *)
Definition junk_client : client :=
  {| geocode := geocode sample_client;
     places_nearby := fun _ _ => Ok junk_page |}.

(** A [googlemaps] module that refuses every key. *)
Definition broken_module : googlemaps :=
  {| Client := fun _ => Raise "Invalid API key provided." |}.

Definition kadikoy_post : request :=
  {| method := "POST"; get_json := Ok (DataDict (Present "Kadikoy")) |}.

(** The components of the ranking key, read off a record: the rating,
    or 0 when it is absent, and the number of ratings, or 0 when absent. *)
Definition rating_or_0 (x : place) : Q :=
  match rating x with
  | Some r => r
  | None => 0%Q
  end.

Definition count_or_0 (x : place) : Z :=
  match user_ratings_total x with
  | Some n => n
  | None => 0
  end.

(** [x] may stand before [y] in a list that is descending by
    (rating or 0, count or 0), compared as pairs. *)
Definition ranks_no_lower (x y : place) : Prop :=
  (rating_or_0 y < rating_or_0 x)%Q \/
  ((rating_or_0 y == rating_or_0 x)%Q /\ count_or_0 y <= count_or_0 x).

(** The record's key (rating or 0, count or 0) equals [(r, n)]. *)
Definition has_key (r : Q) (n : Z) (x : place) : bool :=
  Qeq_bool (rating_or_0 x) r && (count_or_0 x =? n).

(** The answers a category of type [t] received in a trace: the outcomes
    of its proximity requests and of its nearest-of-type request. *)
Definition proximity_answers (t : string) (h : trace) : list (outcome response) :=
  map snd (proximity_calls t h).

Definition nearest_answers (t : string) (h : trace) : list (outcome response) :=
  map snd (nearest_calls t h).

(** A provider that minds the delay: a follow-up request is refused unless
    a sleep comes directly before it. *)
Definition ends_with_sleep (h : trace) : bool :=
  match rev h with
  | EvSleep _ :: _ => true
  | _ => false
  end.

Definition delay_client : client :=
  {| geocode := geocode sample_client;
     places_nearby := fun h req =>
       match page_token req with
       | Some _ =>
           if ends_with_sleep h then places_nearby sample_client h req
           else Raise "INVALID_REQUEST"
       | None => places_nearby sample_client h req
       end |}.

(** The provider's places search gives nothing: the request raises, or
    the response carries no results. *)
Definition silent (out : outcome response) : Prop :=
  match out with
  | Ok response => results response = []
  | Raise _ => True
  end.

(** A provider whose places search is down. *)
Definition places_down : client :=
  {| geocode := geocode sample_client;
     places_nearby := fun _ _ => Raise "timeout" |}.

(** * Verification *)

(** ** The order on keys *)

Lemma key_lt_false_le a b : key_lt a b = false <-> key_le b a.
Proof.
  unfold key_lt, key_le. destruct a as [qa za], b as [qb zb]; simpl.
  destruct (qa ?= qb)%Q eqn:E.
  - apply Qeq_alt in E. rewrite Z.ltb_ge. split.
    + intros H. right. split; [symmetry; exact E | exact H].
    + intros [H | [_ H]]; [|exact H]. rewrite E in H. exfalso. exact (Qlt_irrefl _ H).
  - apply Qlt_alt in E. split; [discriminate|].
    intros [H | [H _]].
    + exfalso. exact (Qlt_irrefl _ (Qlt_trans _ _ _ E H)).
    + rewrite H in E. exfalso. exact (Qlt_irrefl _ E).
  - apply Qgt_alt in E. split; [|reflexivity]. intros _. left. exact E.
Qed.

Lemma key_le_trans a b c : key_le a b -> key_le b c -> key_le a c.
Proof.
  unfold key_le. intros [H1 | [H1 H1']] [H2 | [H2 H2']].
  - left. eapply Qlt_trans; eassumption.
  - left. rewrite <- H2. exact H1.
  - left. rewrite H1. exact H2.
  - right. split; [rewrite H1; exact H2 | lia].
Qed.

Lemma key_lt_asym a b : key_lt a b = true -> key_lt b a = false.
Proof.
  intros H. apply key_lt_false_le. unfold key_lt in H. unfold key_le.
  destruct (fst a ?= fst b)%Q eqn:E; try discriminate.
  - apply Qeq_alt in E. right. split; [exact E | apply Z.ltb_lt in H; lia].
  - apply Qlt_alt in E. left. exact E.
Qed.

Lemma key_eqb_spec a b : key_eqb a b = true <-> ((fst a == fst b)%Q /\ snd a = snd b).
Proof.
  unfold key_eqb. rewrite andb_true_iff, Qeq_bool_iff, Z.eqb_eq. reflexivity.
Qed.

Lemma key_eqb_not_lt a b k :
  key_eqb a k = true -> key_eqb b k = true -> key_lt b a = false.
Proof.
  rewrite !key_eqb_spec. intros [Ha Ha'] [Hb Hb'].
  apply key_lt_false_le. right. split; [rewrite Ha, Hb; reflexivity | lia].
Qed.

(** ** The stable sort *)

Section SortFacts.
Context {A K : Type} (key : A -> K) (lt : K -> K -> bool).
Hypothesis lt_asym : forall a b, lt a b = true -> lt b a = false.
Hypothesis ge_trans : forall a b c, lt b a = false -> lt c b = false -> lt c a = false.

(** [a] may stand before [b] in an ascending list. *)
Let asc (a b : A) : Prop := lt (key b) (key a) = false.

Lemma insert_perm x l : Permutation (insert key lt x l) (x :: l).
Proof.
  induction l as [|y l IH]; simpl; [reflexivity|].
  destruct (lt (key y) (key x)); [|reflexivity].
  rewrite IH. apply perm_swap.
Qed.

Lemma stable_sort_perm l : Permutation (stable_sort key lt l) l.
Proof.
  induction l as [|x l IH]; simpl; [reflexivity|].
  rewrite insert_perm. constructor. exact IH.
Qed.

Lemma insert_sorted x l :
  StronglySorted asc l -> StronglySorted asc (insert key lt x l).
Proof.
  induction 1 as [|y l Hs IH Hall]; simpl.
  - repeat constructor.
  - destruct (lt (key y) (key x)) eqn:E.
    + constructor; [exact IH|].
      apply (Permutation_Forall (Permutation_sym (insert_perm x l))).
      constructor; [apply lt_asym; exact E | exact Hall].
    + constructor; [constructor; assumption|].
      constructor; [exact E|].
      eapply Forall_impl; [|exact Hall]. intros z Hz.
      unfold asc in *. eapply ge_trans; eassumption.
Qed.

Lemma stable_sort_sorted l : StronglySorted asc (stable_sort key lt l).
Proof.
  induction l; simpl; [constructor | apply insert_sorted; assumption].
Qed.

Lemma insert_filter (p : A -> bool) x l :
  (forall y, p x = true -> p y = true -> lt (key y) (key x) = false) ->
  filter p (insert key lt x l) = filter p (x :: l).
Proof.
  intros Hp. induction l as [|y l IH]; [reflexivity|].
  simpl insert. destruct (lt (key y) (key x)) eqn:E; [|reflexivity].
  simpl in *. rewrite IH.
  destruct (p x) eqn:Px; [|reflexivity].
  destruct (p y) eqn:Py; [|reflexivity].
  rewrite (Hp y eq_refl Py) in E. discriminate.
Qed.

Lemma stable_sort_filter (p : A -> bool) l :
  (forall x y, p x = true -> p y = true -> lt (key y) (key x) = false) ->
  filter p (stable_sort key lt l) = filter p l.
Proof.
  intros Hp. induction l as [|x l IH]; [reflexivity|].
  simpl stable_sort. rewrite insert_filter by (intros; apply Hp; assumption).
  simpl. rewrite IH. reflexivity.
Qed.
End SortFacts.

Lemma StronglySorted_app {A} (R : A -> A -> Prop) l1 l2 :
  StronglySorted R l1 -> StronglySorted R l2 ->
  (forall a b, In a l1 -> In b l2 -> R a b) ->
  StronglySorted R (l1 ++ l2).
Proof.
  intros H1 H2 H. induction H1 as [|a l1 Hs IH Hall]; simpl; [exact H2|].
  constructor.
  - apply IH. intros x y Hx Hy. apply H; [right; exact Hx | exact Hy].
  - apply Forall_app. split; [exact Hall|].
    apply Forall_forall. intros b Hb. apply H; [left; reflexivity | exact Hb].
Qed.

Lemma StronglySorted_rev {A} (R : A -> A -> Prop) l :
  StronglySorted R l -> StronglySorted (fun a b => R b a) (rev l).
Proof.
  induction 1 as [|a l Hs IH Hall]; simpl; [constructor|].
  apply StronglySorted_app; [exact IH | repeat constructor |].
  intros x y Hx [<- | []]. rewrite Forall_forall in Hall.
  apply Hall. apply in_rev. exact Hx.
Qed.

Lemma filter_rev' {A} (p : A -> bool) l : filter p (rev l) = rev (filter p l).
Proof.
  induction l as [|x l IH]; [reflexivity|].
  simpl. rewrite filter_app, IH. simpl. destruct (p x); simpl; [reflexivity|].
  rewrite app_nil_r. reflexivity.
Qed.

Lemma StronglySorted_impl {A} (R R' : A -> A -> Prop) l :
  (forall a b, R a b -> R' a b) -> StronglySorted R l -> StronglySorted R' l.
Proof.
  intros HR. induction 1 as [|a l _ IH Hall]; constructor; [exact IH|].
  eapply Forall_impl; [|exact Hall]. exact (HR a).
Qed.

Lemma key_lt_ge_trans a b c :
  key_lt b a = false -> key_lt c b = false -> key_lt c a = false.
Proof.
  rewrite !key_lt_false_le. intros H1 H2. eapply key_le_trans; eassumption.
Qed.

Lemma rank_perm l : Permutation (rank l) l.
Proof.
  unfold rank, sorted.
  rewrite <- Permutation_rev, stable_sort_perm. symmetry. apply Permutation_rev.
Qed.

Lemma rank_descending l :
  StronglySorted (fun x y => key_le (safe_sort_key y) (safe_sort_key x)) (rank l).
Proof.
  unfold rank, sorted.
  apply StronglySorted_impl
    with (R := fun x y => key_lt (safe_sort_key x) (safe_sort_key y) = false).
  - intros x y. apply key_lt_false_le.
  - apply (StronglySorted_rev
             (fun x y => key_lt (safe_sort_key y) (safe_sort_key x) = false)).
    apply stable_sort_sorted; [exact key_lt_asym | exact key_lt_ge_trans].
Qed.

Lemma rank_stable l k :
  filter (fun x => key_eqb (safe_sort_key x) k) (rank l)
  = filter (fun x => key_eqb (safe_sort_key x) k) l.
Proof.
  unfold rank, sorted.
  rewrite filter_rev', stable_sort_filter, filter_rev', rev_involutive.
  - reflexivity.
  - intros x y Hx Hy. eapply key_eqb_not_lt; eassumption.
Qed.

(** C1.  For every list of place records the Composite Ranker
    ([sorted] with [safe_sort_key], [reverse=True]) returns a permutation of
    the records that is ordered descending by the key
    (rating if present else 0, user_ratings_total if present else 0), which
    is the key [safe_sort_key] computes, and for each value of that key the
    records carrying it stand in their original relative order. *)
Theorem rank_sorted_descending_stable (records : list place) :
  (forall x, safe_sort_key x = (rating_or_0 x, count_or_0 x)) /\
  Permutation (rank records) records /\
  StronglySorted ranks_no_lower (rank records) /\
  forall (r : Q) (n : Z),
    filter (has_key r n) (rank records) = filter (has_key r n) records.
Proof.
  split; [intros x; reflexivity|].
  split; [apply rank_perm|]. split; [exact (rank_descending records)|].
  intros r n. exact (rank_stable records (r, n)).
Qed.

(** ** Traces of the searches *)

Lemma nearby_calls_app h1 h2 :
  nearby_calls (h1 ++ h2) = nearby_calls h1 ++ nearby_calls h2.
Proof. apply flat_map_app. Qed.

Lemma proximity_calls_app t h1 h2 :
  proximity_calls t (h1 ++ h2) = proximity_calls t h1 ++ proximity_calls t h2.
Proof. apply flat_map_app. Qed.

Lemma nearest_calls_app t h1 h2 :
  nearest_calls t (h1 ++ h2) = nearest_calls t h1 ++ nearest_calls t h2.
Proof. apply flat_map_app. Qed.

Lemma proximity_calls_segment t new :
  Forall (proximity_event t) new -> proximity_calls t new = nearby_calls new.
Proof.
  induction 1 as [|e new He _ IH]; [reflexivity|].
  change (e :: new) with ([e] ++ new).
  rewrite proximity_calls_app, nearby_calls_app, IH. f_equal.
  destruct e as [| req out |]; simpl in *; try reflexivity.
  destruct He as [-> ->]. rewrite String.eqb_refl. reflexivity.
Qed.

Ltac split5 := split; [|split; [|split; [|split]]].

Section Pagination.
Variables (gmaps : client) (latitude longitude : Q) (place_type : string)
          (radius : Z).

Lemma pagination_spec remaining :
  forall response all_places h,
  exists new,
    snd (pagination gmaps latitude longitude place_type radius remaining
           response all_places h) = h ++ new /\
    Forall (proximity_event place_type) new /\
    (len (nearby_calls new) <= remaining)%nat /\
    follow_ups (Ok response) (nearby_calls new) /\
    match fst (pagination gmaps latitude longitude place_type radius remaining
                 response all_places h) with
    | Ok all => raised (nearby_calls new) = false /\
                all = all_places ++ payload (nearby_calls new)
    | Raise _ => raised (nearby_calls new) = true
    end.
Proof.
  induction remaining as [|remaining' IH]; intros response all_places h.
  - exists []. simpl. destruct (next_page_token response);
      simpl; rewrite !app_nil_r; split5; auto.
  - simpl. destruct (next_page_token response) as [token|] eqn:Etok.
    2:{ exists []. simpl. rewrite !app_nil_r. split5; auto. unfold len; simpl; lia. }
    unfold bind, sleep, call_places_nearby. simpl.
    set (req := page_request latitude longitude place_type radius (Some token)).
    destruct (places_nearby gmaps (h ++ [EvSleep 2]) req) as [response'|msg] eqn:Eout.
    + destruct (IH response' (all_places ++ results response')
                  ((h ++ [EvSleep 2]) ++ [EvNearby req (Ok response')]))
        as (new & Hsnd & Hall & Hlen & Hfol & Hres).
      exists (EvSleep 2 :: EvNearby req (Ok response') :: new).
      rewrite Hsnd. split5.
      * rewrite <- !app_assoc. reflexivity.
      * repeat constructor. exact Hall.
      * simpl. unfold len in *. simpl. lia.
      * simpl. split; [|exact Hfol]. exists response, token. auto.
      * destruct (fst _); simpl.
        -- destruct Hres as [Hr ->]. split; [exact Hr|].
           rewrite <- app_assoc. reflexivity.
        -- exact Hres.
    + exists [EvSleep 2; EvNearby req (Raise msg)]. simpl. split5.
      * rewrite <- app_assoc. reflexivity.
      * repeat constructor.
      * unfold len. simpl. lia.
      * split; [|exact I]. exists response, token. auto.
      * reflexivity.
Qed.
End Pagination.

(** What one proximity search does to the trace and what it returns. *)
Lemma find_places_nearby_spec latitude longitude place_type gmaps radius max_pages h :
  exists new,
    find_places_nearby latitude longitude place_type gmaps radius max_pages h
    = (Ok (provider_list place_type new), h ++ new) /\
    Forall (proximity_event place_type) new /\
    paged (nearby_calls new) /\
    (len (nearby_calls new) <= S (Z.to_nat (max_pages - 1)))%nat.
Proof.
  unfold find_places_nearby, try_except, bind, call_places_nearby.
  set (req := page_request latitude longitude place_type radius None).
  destruct (places_nearby gmaps h req) as [response|msg] eqn:Eout.
  - destruct (pagination_spec gmaps latitude longitude place_type radius
                (Z.to_nat (max_pages - 1)) response ([] ++ results response)
                (h ++ [EvNearby req (Ok response)]))
      as (new & Hsnd & Hall & Hlen & Hfol & Hres).
    exists (EvNearby req (Ok response) :: new).
    assert (Hseg : Forall (proximity_event place_type)
                     (EvNearby req (Ok response) :: new))
      by (constructor; [split; reflexivity | exact Hall]).
    split; [|split; [exact Hseg|split; [split; [reflexivity|exact Hfol]|]]].
    2:{ unfold len in *. simpl. lia. }
    unfold provider_list. rewrite (proximity_calls_segment _ _ Hseg).
    change (nearby_calls (EvNearby req (Ok response) :: new))
      with ((req, Ok response) :: nearby_calls new).
    change (raised ((req, Ok response) :: nearby_calls new))
      with (raised (nearby_calls new)).
    change (payload ((req, Ok response) :: nearby_calls new))
      with (results response ++ payload (nearby_calls new)).
    destruct (pagination _ _ _ _ _ _ _ _ _) as [[all|msg] h'] eqn:Epag;
      simpl in Hsnd, Hres; subst h'.
    + destruct Hres as [-> ->]. unfold lift. simpl.
      rewrite <- app_assoc.
      destruct (normalize_all _); reflexivity.
    + rewrite Hres. rewrite <- app_assoc. reflexivity.
  - exists [EvNearby req (Raise msg)]. simpl.
    split; [|split; [|split; [split; [reflexivity|exact I]|]]].
    + unfold provider_list. simpl. rewrite String.eqb_refl. reflexivity.
    + repeat constructor.
    + unfold len. simpl. lia.
Qed.

Lemma find_nearest_place_spec latitude longitude place_type gmaps h :
  exists new,
    find_nearest_place latitude longitude place_type gmaps h
    = (Ok (nearest_result place_type new), h ++ new) /\
    Forall (nearest_event place_type) new.
Proof.
  unfold find_nearest_place, try_except, bind, call_places_nearby.
  match goal with |- context [places_nearby gmaps h ?r] => set (req := r) end.
  exists [EvNearby req (places_nearby gmaps h req)].
  split; [|repeat constructor].
  unfold nearest_result. simpl. rewrite String.eqb_refl. simpl.
  destruct (places_nearby gmaps h req) as [response|msg]; [|reflexivity].
  destruct (results response) as [|[p|] rest]; reflexivity.
Qed.

Lemma proximity_calls_other t t' seg :
  Forall (proximity_event t') seg -> t' <> t -> proximity_calls t seg = [].
Proof.
  intros H Ht. induction H as [|e seg He _ IH]; [reflexivity|].
  change (e :: seg) with ([e] ++ seg). rewrite proximity_calls_app, IH, app_nil_r.
  destruct e as [| req out |]; simpl in *; try reflexivity.
  destruct He as [-> _]. apply String.eqb_neq in Ht. rewrite Ht. reflexivity.
Qed.

Lemma proximity_calls_nearest t t' seg :
  Forall (nearest_event t') seg -> proximity_calls t seg = [].
Proof.
  intros H. induction H as [|e seg He _ IH]; [reflexivity|].
  change (e :: seg) with ([e] ++ seg). rewrite proximity_calls_app, IH, app_nil_r.
  destruct e as [| req out |]; simpl in *; try reflexivity.
  destruct He as [_ ->]. rewrite andb_false_r. reflexivity.
Qed.

Lemma nearest_calls_proximity t t' seg :
  Forall (proximity_event t') seg -> nearest_calls t seg = [].
Proof.
  intros H. induction H as [|e seg He _ IH]; [reflexivity|].
  change (e :: seg) with ([e] ++ seg). rewrite nearest_calls_app, IH, app_nil_r.
  destruct e as [| req out |]; simpl in *; try reflexivity.
  destruct He as [_ ->]. rewrite andb_false_r. reflexivity.
Qed.

Lemma nearest_calls_other t t' seg :
  Forall (nearest_event t') seg -> t' <> t -> nearest_calls t seg = [].
Proof.
  intros H Ht. induction H as [|e seg He _ IH]; [reflexivity|].
  change (e :: seg) with ([e] ++ seg). rewrite nearest_calls_app, IH, app_nil_r.
  destruct e as [| req out |]; simpl in *; try contradiction.
  destruct He as [-> _]. apply String.eqb_neq in Ht. rewrite Ht. reflexivity.
Qed.

(** Drops from a trace the segments that hold no call of the wanted kind. *)
Ltac vanish :=
  repeat rewrite proximity_calls_app;
  repeat rewrite nearest_calls_app;
  repeat match goal with
    | H : Forall (proximity_event ?t') ?s |- context [proximity_calls ?t ?s] =>
        rewrite (proximity_calls_other t t' s H) by discriminate
    | H : Forall (nearest_event ?t') ?s |- context [proximity_calls ?t ?s] =>
        rewrite (proximity_calls_nearest t t' s H)
    | H : Forall (proximity_event ?t') ?s |- context [nearest_calls ?t ?s] =>
        rewrite (nearest_calls_proximity t t' s H)
    | H : Forall (nearest_event ?t') ?s |- context [nearest_calls ?t ?s] =>
        rewrite (nearest_calls_other t t' s H) by discriminate
    end;
  rewrite ?app_nil_r; simpl app.

Lemma proximity_event_query t e : proximity_event t e -> query_event e.
Proof. destruct e; simpl; tauto. Qed.

Lemma nearest_event_query t e : nearest_event t e -> query_event e.
Proof. destruct e; simpl; tauto. Qed.

Lemma run_queries_spec gmaps lat lng h :
  exists new,
    run_queries gmaps lat lng h = (Ok (queries_of_trace new), h ++ new) /\
    Forall query_event new.
Proof.
  unfold run_queries, bind.
  repeat match goal with
    | |- context [find_places_nearby ?a ?b ?t ?g ?r ?m ?h0] =>
        let s := fresh "s" in let E := fresh "E" in let F := fresh "F" in
        destruct (find_places_nearby_spec a b t g r m h0) as (s & E & F & _);
        rewrite E; clear E
    | |- context [find_nearest_place ?a ?b ?t ?g ?h0] =>
        let s := fresh "s" in let E := fresh "E" in let F := fresh "F" in
        destruct (find_nearest_place_spec a b t g h0) as (s & E & F);
        rewrite E; clear E
    end.
  exists (s ++ s0 ++ s1 ++ s2 ++ s3 ++ s4 ++ s5 ++ s6 ++ s7 ++ s8).
  split.
  - unfold ret. f_equal; [|rewrite <- !app_assoc; reflexivity].
    f_equal. unfold queries_of_trace, provider_list, nearest_result.
    f_equal; vanish; reflexivity.
  - repeat (apply Forall_app; split);
      (eapply Forall_impl; [|eassumption]); intro e;
      (apply proximity_event_query || apply nearest_event_query).
Qed.

(** ** The aggregator *)

Lemma geocode_address_spec address gmaps region h :
  geocode_address address gmaps region h
  = (Ok (geo_of_outcome (geocode gmaps h address region)),
     h ++ [EvGeocode address region (geocode gmaps h address region)]).
Proof.
  unfold geocode_address, try_except, bind, call_geocode.
  destruct (geocode gmaps h address region) as [[|hit rest]|msg]; reflexivity.
Qed.

(** [get_neighborhood_insights] is the geocoding, the ten searches and the
    assembly of their results. *)
Lemma get_neighborhood_insights_eq googlemaps address api_key h :
  get_neighborhood_insights googlemaps address api_key h =
  match Client googlemaps api_key with
  | Raise e =>
      (Ok (Failure ("Failed to initialize Google Maps client: " +++ e) address), h)
  | Ok gmaps =>
      match geocode_address address gmaps "tr" h with
      | (Ok (Some geo), h1) =>
          match run_queries gmaps (lat geo) (lng geo) h1 with
          | (Ok q, h2) => (Ok (Success (assemble address geo q)), h2)
          | (Raise msg, h2) => (Raise msg, h2)
          end
      | (Ok None, h1) =>
          (Ok (Failure ("Could not geocode the address: " +++ address) address), h1)
      | (Raise msg, h1) => (Raise msg, h1)
      end
  end.
Proof.
  unfold get_neighborhood_insights, run_queries.
  destruct (Client googlemaps api_key) as [gmaps|e]; [|reflexivity].
  unfold bind.
  destruct (geocode_address address gmaps "tr" h) as [[[geo|]|msg] h1];
    try reflexivity.
  cbv beta iota zeta.
  repeat (match goal with
          | |- context [find_places_nearby ?a ?b ?t ?g ?r ?m ?h0] =>
              destruct (find_places_nearby a b t g r m h0) as [[?|?] ?]
          | |- context [find_nearest_place ?a ?b ?t ?g ?h0] =>
              destruct (find_nearest_place a b t g h0) as [[?|?] ?]
          end; cbv beta iota zeta; [|reflexivity]).
  reflexivity.
Qed.

Lemma get_neighborhood_insights_success googlemaps address api_key h i h' :
  get_neighborhood_insights googlemaps address api_key h = (Ok (Success i), h') ->
  exists gmaps geo new,
    Client googlemaps api_key = Ok gmaps /\
    fst (geocode_address address gmaps "tr" h) = Ok (Some geo) /\
    h' = h ++ new /\
    i = assemble address geo (queries_of_trace new).
Proof.
  rewrite get_neighborhood_insights_eq.
  destruct (Client googlemaps api_key) as [gmaps|e]; [|discriminate].
  rewrite geocode_address_spec.
  set (ev := EvGeocode address "tr" (geocode gmaps h address "tr")).
  destruct (geo_of_outcome (geocode gmaps h address "tr")) as [geo|] eqn:Egeo;
    [|discriminate].
  destruct (run_queries_spec gmaps (lat geo) (lng geo) (h ++ [ev]))
    as (new & E & _).
  rewrite E. intros [= <- <-].
  exists gmaps, geo, (ev :: new).
  split; [reflexivity|]. split; [rewrite geocode_address_spec; exact (f_equal Ok Egeo)|].
  split; [rewrite <- app_assoc; reflexivity|]. reflexivity.
Qed.

Lemma get_neighborhood_insights_total googlemaps address api_key h :
  exists r new,
    get_neighborhood_insights googlemaps address api_key h = (Ok r, h ++ new).
Proof.
  rewrite get_neighborhood_insights_eq.
  destruct (Client googlemaps api_key) as [gmaps|e].
  2:{ eexists _, []. rewrite app_nil_r. reflexivity. }
  rewrite geocode_address_spec.
  destruct (geo_of_outcome (geocode gmaps h address "tr")) as [geo|].
  - destruct (run_queries_spec gmaps (lat geo) (lng geo)
                (h ++ [EvGeocode address "tr" (geocode gmaps h address "tr")]))
      as (new & E & _).
    rewrite E. eexists _, (_ :: new). rewrite <- app_assoc. reflexivity.
  - eexists _, [_]. reflexivity.
Qed.

(** ** Providers that differ on one category *)

Lemma erase_app c h1 h2 : erase c (h1 ++ h2) = erase c h1 ++ erase c h2.
Proof. apply filter_app. Qed.

Lemma erase_proximity_segment c seg :
  Forall (proximity_event c) seg -> erase c seg = [].
Proof.
  induction 1 as [|e seg He _ IH]; [reflexivity|].
  simpl. rewrite IH. destruct e as [| req out |]; simpl in *; try tauto.
  destruct He as [-> _]. rewrite String.eqb_refl. reflexivity.
Qed.

Lemma erase_nearest_segment c seg :
  Forall (nearest_event c) seg -> erase c seg = [].
Proof.
  induction 1 as [|e seg He _ IH]; [reflexivity|].
  simpl. rewrite IH. destruct e as [| req out |]; simpl in *; try tauto.
  destruct He as [-> _]. rewrite String.eqb_refl. reflexivity.
Qed.

Lemma proximity_calls_erase t c h :
  t <> c -> proximity_calls t (erase c h) = proximity_calls t h.
Proof.
  intros Ht. induction h as [|e h IH]; [reflexivity|].
  change (e :: h) with ([e] ++ h).
  rewrite erase_app, !proximity_calls_app, IH. f_equal.
  destruct e as [| req out |]; try reflexivity.
  simpl. destruct (String.eqb_spec (type req) c) as [E|E]; simpl; [|reflexivity].
  rewrite E. apply String.eqb_neq in Ht. rewrite String.eqb_sym, Ht. reflexivity.
Qed.

Lemma nearest_calls_erase t c h :
  t <> c -> nearest_calls t (erase c h) = nearest_calls t h.
Proof.
  intros Ht. induction h as [|e h IH]; [reflexivity|].
  change (e :: h) with ([e] ++ h).
  rewrite erase_app, !nearest_calls_app, IH. f_equal.
  destruct e as [| req out |]; try reflexivity.
  simpl. destruct (String.eqb_spec (type req) c) as [E|E]; simpl; [|reflexivity].
  rewrite E. apply String.eqb_neq in Ht. rewrite String.eqb_sym, Ht. reflexivity.
Qed.

Lemma provider_list_erase t c h1 h2 :
  t <> c -> erase c h1 = erase c h2 -> provider_list t h1 = provider_list t h2.
Proof.
  intros Ht E. unfold provider_list.
  rewrite <- (proximity_calls_erase t c h1 Ht), E, proximity_calls_erase by exact Ht.
  reflexivity.
Qed.

Lemma nearest_result_erase t c h1 h2 :
  t <> c -> erase c h1 = erase c h2 -> nearest_result t h1 = nearest_result t h2.
Proof.
  intros Ht E. unfold nearest_result.
  rewrite <- (nearest_calls_erase t c h1 Ht), E, nearest_calls_erase by exact Ht.
  reflexivity.
Qed.

Section Agree.
Variables (c : string) (g1 g2 : client).
Hypothesis Hagree : agree_outside c g1 g2.

Lemma pagination_erase latitude longitude t radius remaining :
  t <> c ->
  forall response all_places h1 h2,
    erase c h1 = erase c h2 ->
    erase c (snd (pagination g1 latitude longitude t radius remaining
                    response all_places h1)) =
    erase c (snd (pagination g2 latitude longitude t radius remaining
                    response all_places h2)).
Proof.
  intros Ht. induction remaining as [|remaining' IH];
    intros response all_places h1 h2 E; simpl.
  - destruct (next_page_token response); exact E.
  - destruct (next_page_token response) as [token|]; [|exact E].
    unfold bind, sleep, call_places_nearby. simpl.
    set (req := page_request latitude longitude t radius (Some token)).
    assert (E' : erase c (h1 ++ [EvSleep 2]) = erase c (h2 ++ [EvSleep 2]))
      by (rewrite !erase_app, E; reflexivity).
    rewrite (proj2 Hagree _ _ req Ht E').
    destruct (places_nearby g2 (h2 ++ [EvSleep 2]) req) as [response'|msg].
    + apply IH. rewrite !erase_app, E. reflexivity.
    + simpl. rewrite !erase_app, E. reflexivity.
Qed.

Lemma find_places_nearby_erase latitude longitude t radius max_pages h1 h2 :
  erase c h1 = erase c h2 ->
  erase c (snd (find_places_nearby latitude longitude t g1 radius max_pages h1)) =
  erase c (snd (find_places_nearby latitude longitude t g2 radius max_pages h2)).
Proof.
  intros E. destruct (String.eqb_spec t c) as [->|Ht].
  - destruct (find_places_nearby_spec latitude longitude c g1 radius max_pages h1)
      as (n1 & -> & F1 & _).
    destruct (find_places_nearby_spec latitude longitude c g2 radius max_pages h2)
      as (n2 & -> & F2 & _).
    simpl. rewrite !erase_app, E, (erase_proximity_segment c n1 F1),
      (erase_proximity_segment c n2 F2).
    reflexivity.
  - unfold find_places_nearby, try_except, bind, call_places_nearby.
    set (req := page_request latitude longitude t radius None).
    rewrite (proj2 Hagree _ _ req Ht E).
    destruct (places_nearby g2 h2 req) as [response|msg].
    2:{ simpl. rewrite !erase_app, E. reflexivity. }
    assert (E' : erase c (h1 ++ [EvNearby req (Ok response)]) =
                 erase c (h2 ++ [EvNearby req (Ok response)]))
      by (rewrite !erase_app, E; reflexivity).
    pose proof (pagination_erase latitude longitude t radius
                  (Z.to_nat (max_pages - 1)) Ht response
                  ([] ++ results response) _ _ E') as P.
    destruct (pagination g1 _ _ _ _ _ _ _ _) as [[a1|m1] k1];
      destruct (pagination g2 _ _ _ _ _ _ _ _) as [[a2|m2] k2];
      unfold lift; simpl in *;
      repeat match goal with
        | |- context [normalize_all ?l] => destruct (normalize_all l)
        end; simpl; exact P.
Qed.

Lemma find_nearest_place_erase latitude longitude t h1 h2 :
  erase c h1 = erase c h2 ->
  erase c (snd (find_nearest_place latitude longitude t g1 h1)) =
  erase c (snd (find_nearest_place latitude longitude t g2 h2)).
Proof.
  intros E. destruct (String.eqb_spec t c) as [->|Ht].
  - destruct (find_nearest_place_spec latitude longitude c g1 h1) as (n1 & -> & F1).
    destruct (find_nearest_place_spec latitude longitude c g2 h2) as (n2 & -> & F2).
    simpl. rewrite !erase_app, E, (erase_nearest_segment c n1 F1),
      (erase_nearest_segment c n2 F2).
    reflexivity.
  - unfold find_nearest_place, try_except, bind, call_places_nearby.
    match goal with |- context [places_nearby g1 h1 ?r] => set (req := r) end.
    rewrite (proj2 Hagree _ _ req Ht E).
    destruct (places_nearby g2 h2 req) as [response|msg].
    + destruct (results response) as [|[p|] rest]; simpl;
        rewrite !erase_app, E; reflexivity.
    + simpl. rewrite !erase_app, E. reflexivity.
Qed.

Lemma run_queries_erase lat lng h1 h2 :
  erase c h1 = erase c h2 ->
  erase c (snd (run_queries g1 lat lng h1)) =
  erase c (snd (run_queries g2 lat lng h2)).
Proof.
  intros E. unfold run_queries, bind. cbv zeta.
  repeat match goal with
    | |- context [find_places_nearby ?a ?b ?t g1 ?r ?m ?k1] =>
        match goal with
        | |- context [find_places_nearby a b t g2 r m ?k2] =>
            let E' := fresh "E" in
            assert (E' := find_places_nearby_erase a b t r m k1 k2 ltac:(assumption));
            destruct (find_places_nearby_spec a b t g1 r m k1) as (? & Hx & _);
            rewrite Hx in *; clear Hx;
            destruct (find_places_nearby_spec a b t g2 r m k2) as (? & Hx & _);
            rewrite Hx in *; clear Hx; simpl in E'
        end
    | |- context [find_nearest_place ?a ?b ?t g1 ?k1] =>
        match goal with
        | |- context [find_nearest_place a b t g2 ?k2] =>
            let E' := fresh "E" in
            assert (E' := find_nearest_place_erase a b t k1 k2 ltac:(assumption));
            destruct (find_nearest_place_spec a b t g1 k1) as (? & Hx & _);
            rewrite Hx in *; clear Hx;
            destruct (find_nearest_place_spec a b t g2 k2) as (? & Hx & _);
            rewrite Hx in *; clear Hx; simpl in E'
        end
    end.
  simpl. assumption.
Qed.
End Agree.

(** ** The sample run, evaluated *)

Example sample_paging :
  map (fun c => page_token (fst c))
    (nearby_calls
       (snd (find_places_nearby (41 # 1) (29 # 1) "cafe" sample_client 1000 2 [])))
  = [None; Some "more"].
Proof. reflexivity. Qed.

Example sample_sleeps_between_pages :
  map (fun e => match e with EvSleep secs => Some secs | _ => None end)
    (snd (find_places_nearby (41 # 1) (29 # 1) "cafe" sample_client 1000 2 []))
  = [None; Some 2; None].
Proof. reflexivity. Qed.

Example sample_single_page :
  len (nearby_calls
         (snd (find_places_nearby (41 # 1) (29 # 1) "cafe" sample_client 1000 1 [])))
  = 1%nat.
Proof. reflexivity. Qed.

Example sample_rank :
  map name (rank (provider_list "cafe" (sample_trace sample_client)))
  = [Some "Gama"; Some "Gama"; Some "Alfa"; Some "Alfa"; Some "Beta"; Some "Beta"].
Proof. vm_compute. reflexivity. Qed.

Example sample_headline :
  headline (summary (sample_report sample_client))
  = "Kadikoy, Istanbul: 6 cafes, 6 parks, 6 gyms, 6 schools, 6 hospitals, 1 malls nearby.".
Proof. vm_compute. reflexivity. Qed.

Example sample_options :
  fst (handler (module_of sample_client) None
         {| method := "OPTIONS"; get_json := Raise "no body" |} [])
  = Ok {| statusCode := 200;
          headers := [("Access-Control-Allow-Origin", "*");
                      ("Access-Control-Allow-Methods", "POST, OPTIONS");
                      ("Access-Control-Allow-Headers", "Content-Type");
                      ("Content-Type", "application/json")];
          body := JDict [("ok", JBool true)] |}.
Proof. reflexivity. Qed.

Example sample_get_not_allowed :
  fst (handler (module_of sample_client) (Some "AIza-key")
         {| method := "GET"; get_json := Raise "no body" |} [])
  = Ok (error_response 405 "Method not allowed. Use POST.").
Proof. reflexivity. Qed.

Example sample_post :
  handler (module_of sample_client) (Some "AIza-key")
    {| method := "POST"; get_json := Ok (DataDict (Present "Kadikoy")) |} []
  = (Ok {| statusCode := 200;
           headers := cors_json_headers;
           body := insights_to_json (sample_report sample_client) |},
     sample_trace sample_client).
Proof. vm_compute. reflexivity. Qed.

(** ** Claims about the searches *)

Lemma normalize_all_length l places :
  normalize_all l = Ok places -> len places = len l.
Proof.
  revert places. induction l as [|item l IH]; intros places; simpl.
  - intros [= <-]. reflexivity.
  - destruct (normalize item); [|discriminate].
    destruct (normalize_all l); [|discriminate].
    intros [= <-]. unfold len in *. simpl. rewrite (IH _ eq_refl). reflexivity.
Qed.

Lemma normalize_all_In l places x :
  normalize_all l = Ok places -> In x places ->
  exists p, In (RawDict p) l /\ normalize (RawDict p) = Ok x.
Proof.
  revert places. induction l as [|item l IH]; intros places; simpl.
  - intros [= <-] [].
  - destruct (normalize item) as [y|] eqn:Ey; [|discriminate].
    destruct (normalize_all l) as [ys|]; [|discriminate].
    intros [= <-] [<- | Hin].
    + destruct item as [p|]; [|discriminate]. exists p. split; [left; reflexivity|exact Ey].
    + destruct (IH _ eq_refl Hin) as (p & Hp & Hn). exists p. split; [right; exact Hp|exact Hn].
Qed.

Lemma provider_list_length t h :
  (len (provider_list t h) <= len (payload (proximity_calls t h)))%nat.
Proof.
  unfold provider_list. destruct (raised _); [unfold len; simpl; lia|].
  destruct (normalize_all _) as [places|] eqn:E; [|unfold len; simpl; lia].
  rewrite (normalize_all_length _ _ E). lia.
Qed.

Lemma provider_list_In t h x :
  In x (provider_list t h) ->
  exists p, In (RawDict p) (payload (proximity_calls t h)) /\
            normalize (RawDict p) = Ok x.
Proof.
  unfold provider_list. destruct (raised _); [intros []|].
  destruct (normalize_all _) as [places|] eqn:E; [|intros []].
  apply normalize_all_In. exact E.
Qed.

Lemma payload_bound calls (page_size : nat) :
  (forall req resp, In (req, Ok resp) calls -> (len (results resp) <= page_size)%nat) ->
  (len (payload calls) <= page_size * len calls)%nat.
Proof.
  induction calls as [|[req out] calls IH]; intros H; [unfold len; simpl; lia|].
  change (payload ((req, out) :: calls))
    with (match out with Ok r => results r | Raise _ => [] end ++ payload calls).
  unfold len in *. rewrite List.length_app. simpl List.length.
  assert (List.length (match out with Ok r => results r | Raise _ => [] end)
          <= page_size)%nat.
  { destruct out as [r|]; [apply (H req r); left; reflexivity | simpl; lia]. }
  assert (List.length (payload calls) <= page_size * List.length calls)%nat
    by (apply IH; intros r0 r1 Hin; apply (H r0 r1); right; exact Hin).
  lia.
Qed.

(** C3.  With [max_pages >= 1], as the contract of the search requires,
    and whatever the provider answers, [find_places_nearby] returns after at
    most [max_pages] page requests; the
    first carries no token and each follow-up carries the [next_page_token]
    of the response before it; the result holds no more records than those
    requests delivered, hence at most [page_size * max_pages] when no page
    exceeds [page_size]. *)
Theorem find_places_nearby_page_cap latitude longitude place_type gmaps radius
  max_pages h :
  1 <= max_pages ->
  exists places new,
    find_places_nearby latitude longitude place_type gmaps radius max_pages h
    = (Ok places, h ++ new) /\
    Z.of_nat (len (nearby_calls new)) <= max_pages /\
    paged (nearby_calls new) /\
    (len places <= len (payload (nearby_calls new)))%nat /\
    forall page_size : nat,
      (forall req resp, In (req, Ok resp) (nearby_calls new) ->
                        (len (results resp) <= page_size)%nat) ->
      (len places <= page_size * Z.to_nat max_pages)%nat.
Proof.
  intros Hmax.
  destruct (find_places_nearby_spec latitude longitude place_type gmaps radius
              max_pages h) as (new & E & Hseg & Hpaged & Hlen).
  exists (provider_list place_type new), new.
  pose proof (provider_list_length place_type new) as Hpl.
  rewrite (proximity_calls_segment _ _ Hseg) in Hpl.
  split; [exact E|]. split; [lia|]. split; [exact Hpaged|]. split; [exact Hpl|].
  intros page_size Hsize. pose proof (payload_bound _ _ Hsize) as Hb.
  assert (len (nearby_calls new) <= Z.to_nat max_pages)%nat by lia.
  nia.
Qed.

Lemma find_places_nearby_page_cap_witness :
  1 <= 2 /\
  exists places new,
    find_places_nearby (41 # 1) (29 # 1) "cafe" sample_client 1000 2 []
    = (Ok places, [] ++ new) /\
    Z.of_nat (len (nearby_calls new)) <= 2 /\
    paged (nearby_calls new) /\
    (len places <= len (payload (nearby_calls new)))%nat /\
    forall page_size : nat,
      (forall req resp, In (req, Ok resp) (nearby_calls new) ->
                        (len (results resp) <= page_size)%nat) ->
      (len places <= page_size * Z.to_nat 2)%nat.
Proof.
  split; [lia|].
  apply (find_places_nearby_page_cap (41 # 1) (29 # 1) "cafe" sample_client 1000 2 []).
  lia.
Defined.

(** C4.  When geocoding the address yields no result or raises,
    [get_neighborhood_insights] returns
    [{ok: false, error: ..., query: address}] with an error that contains the
    address, and the run issues no [places_nearby] request at all, so neither
    search function was called. *)
Theorem geocoding_failure_report googlemaps address api_key gmaps h :
  Client googlemaps api_key = Ok gmaps ->
  (geocode gmaps h address "tr" = Ok [] \/
   exists msg, geocode gmaps h address "tr" = Raise msg) ->
  exists error new,
    get_neighborhood_insights googlemaps address api_key h
    = (Ok (Failure error address), h ++ new) /\
    report_to_json (Failure error address)
    = JDict [("ok", JBool false); ("error", JStr error); ("query", JStr address)] /\
    contains error address /\
    nearby_calls new = [].
Proof.
  intros HC Hgeo.
  exists ("Could not geocode the address: " +++ address),
    [EvGeocode address "tr" (geocode gmaps h address "tr")].
  rewrite get_neighborhood_insights_eq, HC, geocode_address_spec.
  assert (E : geo_of_outcome (geocode gmaps h address "tr") = None)
    by (destruct Hgeo as [-> | [msg ->]]; reflexivity).
  rewrite E. split; [reflexivity|]. split; [reflexivity|]. split; [|reflexivity].
  exists "Could not geocode the address: ", "".
  clear. induction address as [|a s IH]; [reflexivity|].
  simpl in *. injection IH as IH. rewrite <- IH. reflexivity.
Qed.

Lemma geocoding_failure_report_witness :
  exists error new,
    get_neighborhood_insights (module_of sample_client) "Atlantis" "AIza-key" []
    = (Ok (Failure error "Atlantis"), [] ++ new) /\
    report_to_json (Failure error "Atlantis")
    = JDict [("ok", JBool false); ("error", JStr error); ("query", JStr "Atlantis")] /\
    contains error "Atlantis" /\
    nearby_calls new = [].
Proof.
  apply (geocoding_failure_report (module_of sample_client) "Atlantis" "AIza-key"
           sample_client []).
  - reflexivity.
  - left. reflexivity.
Defined.

Lemma place_type_of_inj c c' : place_type_of c = place_type_of c' -> c = c'.
Proof. destruct c, c'; simpl; intros H; first [reflexivity | discriminate H]. Qed.

Lemma answers_decide calls1 calls2 :
  map snd calls1 = map snd calls2 ->
  raised calls1 = raised calls2 /\ payload calls1 = payload calls2.
Proof.
  revert calls2. induction calls1 as [|[r1 o1] calls1 IH]; intros [|[r2 o2] calls2];
    try discriminate; [split; reflexivity|].
  simpl map. intros [= <- H]. destruct (IH _ H) as [Hr Hp].
  unfold raised, payload in *. simpl. rewrite Hr, Hp. split; reflexivity.
Qed.

Lemma provider_list_answers t h1 h2 :
  proximity_answers t h1 = proximity_answers t h2 ->
  provider_list t h1 = provider_list t h2.
Proof.
  intros H. destruct (answers_decide _ _ H) as [Hr Hp].
  unfold provider_list. rewrite Hr, Hp. reflexivity.
Qed.

Lemma nearest_result_answers t h1 h2 :
  nearest_answers t h1 = nearest_answers t h2 ->
  nearest_result t h1 = nearest_result t h2.
Proof.
  unfold nearest_answers, nearest_result.
  destruct (nearest_calls t h1) as [|[r1 o1] c1];
    destruct (nearest_calls t h2) as [|[r2 o2] c2]; try discriminate;
    [reflexivity|].
  simpl. intros [= <- _]. reflexivity.
Qed.

(** C2.  [find_places_nearby] never raises, whatever the provider does, and
    returns the empty list when one of its page requests raised.  In a run,
    against any provider, where a proximity request of category [c] raised,
    the section of [c] has count 0 and an empty record list (it is exactly
    [{count: 0, top: []}] for the categories without a [nearest] field).
    Every section is decided by the answers its own category received: it
    is the section of any other run, against any provider, in which that
    category received the same answers, such as the run in which [c] did
    not fail.  In particular each other section is the one of the run
    against a provider that answers alike outside [c]. *)
Theorem provider_error_is_contained (c : category) googlemaps1 address api_key
  h i1 new1 :
  get_neighborhood_insights googlemaps1 address api_key h
  = (Ok (Success i1), h ++ new1) ->
  raised (proximity_calls (place_type_of c) new1) = true ->
  (forall gmaps latitude longitude place_type radius max_pages h0,
      exists places new,
        find_places_nearby latitude longitude place_type gmaps radius
          max_pages h0 = (Ok places, h0 ++ new) /\
        (raised (nearby_calls new) = true -> places = [])) /\
  section_count i1 c = 0%nat /\
  section_items i1 c = [] /\
  (c <> Hospital -> c <> SubwayStation ->
   section_of i1 c = PlainSection {| count := 0; top := [] |}) /\
  (forall googlemaps2 address2 api_key2 h2 i2 new2,
      get_neighborhood_insights googlemaps2 address2 api_key2 h2
      = (Ok (Success i2), h2 ++ new2) ->
      forall c',
        proximity_answers (place_type_of c') new1
        = proximity_answers (place_type_of c') new2 ->
        nearest_answers (place_type_of c') new1
        = nearest_answers (place_type_of c') new2 ->
        section_of i1 c' = section_of i2 c') /\
  (forall googlemaps2 gmaps1 gmaps2 i2 new2,
      Client googlemaps1 api_key = Ok gmaps1 ->
      Client googlemaps2 api_key = Ok gmaps2 ->
      agree_outside (place_type_of c) gmaps1 gmaps2 ->
      get_neighborhood_insights googlemaps2 address api_key h
      = (Ok (Success i2), h ++ new2) ->
      forall c', c' <> c -> section_of i1 c' = section_of i2 c').
Proof.
  intros Hrun1 Hraised.
  split.
  { intros gmaps latitude longitude place_type radius max_pages h0.
    destruct (find_places_nearby_spec latitude longitude place_type gmaps
                radius max_pages h0) as (new & E & Hseg & _).
    exists (provider_list place_type new), new. split; [exact E|].
    intros Hr. unfold provider_list.
    rewrite (proximity_calls_segment _ _ Hseg), Hr. reflexivity. }
  assert (Hnil : provider_list (place_type_of c) new1 = []).
  { unfold provider_list. rewrite Hraised. reflexivity. }
  pose proof Hrun1 as Hsucc1.
  apply get_neighborhood_insights_success in Hsucc1.
  destruct Hsucc1 as (g1 & geo1 & n1 & _ & _ & En1 & Hi1).
  apply app_inv_head in En1. subst n1.
  split; [|split; [|split; [|split]]].
  - subst i1. destruct c; simpl in *; rewrite Hnil; reflexivity.
  - subst i1. destruct c; simpl in *; rewrite Hnil; reflexivity.
  - intros H1 H2. subst i1.
    destruct c; try congruence; simpl in *; rewrite Hnil; reflexivity.
  - intros googlemaps2 address2 api_key2 h2 i2 new2 Hrun2 c' Hp Hn.
    apply get_neighborhood_insights_success in Hrun2.
    destruct Hrun2 as (g2 & geo2 & n2 & _ & _ & En2 & ->).
    apply app_inv_head in En2. subst n2 i1.
    apply provider_list_answers in Hp. apply nearest_result_answers in Hn.
    destruct c'; simpl in *; rewrite ?Hp, ?Hn; reflexivity.
  - intros googlemaps2 gmaps1 gmaps2 i2 new2 HC1 HC2 Hagree Hrun2 c' Hc'.
    assert (Herase : erase (place_type_of c) new1 = erase (place_type_of c) new2).
    { pose proof (f_equal snd Hrun1) as S1. pose proof (f_equal snd Hrun2) as S2.
      simpl in S1, S2.
      rewrite get_neighborhood_insights_eq, HC1, geocode_address_spec in S1.
      rewrite get_neighborhood_insights_eq, HC2, geocode_address_spec in S2.
      rewrite get_neighborhood_insights_eq, HC1, geocode_address_spec in Hrun1.
      rewrite get_neighborhood_insights_eq, HC2, geocode_address_spec in Hrun2.
      rewrite (proj1 Hagree h h address "tr" eq_refl) in S1, Hrun1.
      set (out := geocode gmaps2 h address "tr") in *.
      destruct (geo_of_outcome out) as [geo|]; [|discriminate Hrun1].
      pose proof (run_queries_erase (place_type_of c) gmaps1 gmaps2 Hagree
                    (lat geo) (lng geo)
                    (h ++ [EvGeocode address "tr" out])
                    (h ++ [EvGeocode address "tr" out]) eq_refl) as R.
      destruct (run_queries gmaps1 _ _ _) as [[q1|m1] k1]; simpl in S1;
        destruct (run_queries gmaps2 _ _ _) as [[q2|m2] k2]; simpl in S2;
        simpl in R; subst k1 k2; rewrite !erase_app in R;
        apply app_inv_head in R; exact R. }
    apply get_neighborhood_insights_success in Hrun2.
    destruct Hrun2 as (g2 & geo2 & n2 & _ & _ & En2 & ->).
    apply app_inv_head in En2. subst n2 i1.
    assert (Ht : place_type_of c' <> place_type_of c)
      by (intros E; apply Hc', place_type_of_inj, E).
    pose proof (provider_list_erase _ _ _ _ Ht Herase) as Hp.
    pose proof (nearest_result_erase _ _ _ _ Ht Herase) as Hn.
    destruct c'; simpl in *; rewrite ?Hp, ?Hn; reflexivity.
Qed.

Lemma agree_outside_failing c g :
  (forall h1 h2 address region, geocode g h1 address region = geocode g h2 address region) ->
  (forall h1 h2 req, places_nearby g h1 req = places_nearby g h2 req) ->
  agree_outside c (failing c g) g.
Proof.
  intros Hg Hp. split.
  - intros h1 h2 address region _. apply Hg.
  - intros h1 h2 req Ht _. simpl.
    apply String.eqb_neq in Ht. rewrite Ht. apply Hp.
Qed.

Lemma provider_error_is_contained_witness :
  raised (proximity_calls "hospital"
            (sample_trace (failing "hospital" delay_client))) = true /\
  section_count (sample_report (failing "hospital" delay_client)) Hospital = 0%nat /\
  section_items (sample_report (failing "hospital" delay_client)) Hospital = [] /\
  section_count (sample_report delay_client) Hospital = 6%nat /\
  section_of (sample_report (failing "hospital" delay_client)) Cafe
  = section_of (sample_report delay_client) Cafe /\
  section_of (sample_report hospital_down) Cafe
  = section_of (sample_report sample_client) Cafe.
Proof.
  assert (R : raised (proximity_calls "hospital"
                        (sample_trace (failing "hospital" delay_client))) = true)
    by (vm_compute; reflexivity).
  split; [exact R|].
  destruct (provider_error_is_contained Hospital
              (module_of (failing "hospital" delay_client)) "Kadikoy" "AIza-key" []
              (sample_report (failing "hospital" delay_client))
              (sample_trace (failing "hospital" delay_client))
              ltac:(vm_compute; reflexivity) R)
    as (_ & A & B & _ & D & _).
  split; [exact A|]. split; [exact B|]. split; [vm_compute; reflexivity|].
  split.
  - apply (D (module_of delay_client) "Kadikoy" "AIza-key" []
             (sample_report delay_client) (sample_trace delay_client)
             ltac:(vm_compute; reflexivity) Cafe);
      vm_compute; reflexivity.
  - destruct (provider_error_is_contained Hospital
                (module_of hospital_down) "Kadikoy" "AIza-key" []
                (sample_report hospital_down) (sample_trace hospital_down)
                ltac:(vm_compute; reflexivity) ltac:(vm_compute; reflexivity))
      as (_ & _ & _ & _ & _ & E).
    apply (E (module_of sample_client) hospital_down sample_client
             (sample_report sample_client) (sample_trace sample_client)
             eq_refl eq_refl
             (agree_outside_failing "hospital" sample_client
                (fun _ _ _ _ => eq_refl) (fun _ _ _ => eq_refl))
             ltac:(vm_compute; reflexivity)).
    discriminate.
Defined.

Lemma is_mall_spec m : is_mall m = true <-> has_tag "shopping_mall" m.
Proof.
  unfold is_mall, has_tag, mem. rewrite existsb_exists. split.
  - intros (x & Hin & Hx). apply String.eqb_eq in Hx. subst x.
    destruct (types m) as [l|]; [|destruct Hin]. exists l. auto.
  - intros (l & -> & Hin). exists "shopping_mall". split; [exact Hin|].
    apply String.eqb_refl.
Qed.

Lemma rank_In x l : In x (rank l) <-> In x l.
Proof.
  split; apply Permutation_in; [|symmetry]; apply rank_perm.
Qed.

Lemma rank_length l : len (rank l) = len l.
Proof. apply Permutation_length, rank_perm. Qed.

Lemma slice_to_In {A} n (x : A) l : In x (slice_to n l) -> In x l.
Proof.
  intros H. unfold slice_to in H. rewrite <- (firstn_skipn n l).
  apply in_or_app. left. exact H.
Qed.

Lemma slice_to_length {A} n (l : list A) : len (slice_to n l) = Nat.min n (len l).
Proof. apply length_firstn. Qed.

(** C5.  Every record of the shopping_malls [top] carries the tag
    ["shopping_mall"] and comes from the provider's list for that category;
    [count] is the number of records of that list carrying the tag; a record
    without the tag is not in [top]. *)
Theorem shopping_malls_carry_the_tag googlemaps address api_key h i new :
  get_neighborhood_insights googlemaps address api_key h
  = (Ok (Success i), h ++ new) ->
  let malls := provider_list "shopping_mall" new in
  let section := shopping_malls (social_life i) in
  Forall (has_tag "shopping_mall") (top section) /\
  count section = len (filter is_mall malls) /\
  (forall m, In m (top section) -> In m malls) /\
  (forall m, ~ has_tag "shopping_mall" m -> ~ In m (top section)).
Proof.
  intros Hrun malls section.
  apply get_neighborhood_insights_success in Hrun.
  destruct Hrun as (g & geo & n & _ & _ & En & ->).
  apply app_inv_head in En. subst n. subst section. simpl.
  fold malls.
  assert (Hin : forall m, In m (slice_to 5 (rank (filter is_mall malls))) ->
                          In m malls /\ is_mall m = true).
  { intros m Hm. apply slice_to_In, rank_In, filter_In in Hm. exact Hm. }
  split; [|split; [reflexivity|split]].
  - apply Forall_forall. intros m Hm. apply is_mall_spec, Hin, Hm.
  - intros m Hm. apply Hin, Hm.
  - intros m Hno Hm. apply Hno, is_mall_spec, Hin, Hm.
Qed.

Lemma shopping_malls_carry_the_tag_witness :
  Forall (has_tag "shopping_mall")
    (top (shopping_malls (social_life (sample_report sample_client)))) /\
  count (shopping_malls (social_life (sample_report sample_client))) = 1%nat /\
  len (provider_list "shopping_mall" (sample_trace sample_client)) = 2%nat.
Proof.
  destruct (shopping_malls_carry_the_tag (module_of sample_client) "Kadikoy"
              "AIza-key" [] (sample_report sample_client)
              (sample_trace sample_client) ltac:(vm_compute; reflexivity))
    as (A & B & _).
  split; [exact A|]. split; vm_compute; reflexivity.
Defined.

(** C6.  In a successful report the [count] of every section is the size
    of the category's result list (after the tag filter for shopping_mall)
    before truncation, and the record list has [min top_n count] elements,
    at most 5. *)
Theorem count_is_pre_truncation googlemaps address api_key h i new :
  get_neighborhood_insights googlemaps address api_key h
  = (Ok (Success i), h ++ new) ->
  forall c,
    section_count i c
    = len (post_filter c (provider_list (place_type_of c) new)) /\
    len (section_items i c) = Nat.min (top_n default_cfg) (section_count i c) /\
    (len (section_items i c) <= 5)%nat.
Proof.
  intros Hrun c.
  apply get_neighborhood_insights_success in Hrun.
  destruct Hrun as (g & geo & n & _ & _ & En & ->).
  apply app_inv_head in En. subst n.
  assert (H : section_count (assemble address geo (queries_of_trace new)) c
              = len (post_filter c (provider_list (place_type_of c) new)) /\
              len (section_items (assemble address geo (queries_of_trace new)) c)
              = Nat.min (top_n default_cfg)
                  (section_count (assemble address geo (queries_of_trace new)) c)).
  { destruct c; (split; [reflexivity|]);
      cbn [section_items section_count assemble top count h_top h_count
           s_alternatives s_count social_life family_life transport cafes
           shopping_malls parks gyms schools hospitals pharmacies subway];
      rewrite slice_to_length, ?rank_length; reflexivity. }
  destruct H as [H1 H2]. split; [exact H1|]. split; [exact H2|].
  rewrite H2. exact (Nat.le_min_l 5 _).
Qed.

Lemma count_is_pre_truncation_witness :
  section_count (sample_report sample_client) Cafe = 6%nat /\
  len (section_items (sample_report sample_client) Cafe) = 5%nat /\
  len (provider_list "cafe" (sample_trace sample_client)) = 6%nat.
Proof.
  destruct (count_is_pre_truncation (module_of sample_client) "Kadikoy"
              "AIza-key" [] (sample_report sample_client)
              (sample_trace sample_client) ltac:(vm_compute; reflexivity) Cafe)
    as (A & B & _).
  rewrite A in B. split; [rewrite A|split; [rewrite B|]]; vm_compute; reflexivity.
Defined.

(** C7 as stated does not hold: against the sample provider the
    [nearest] field of the hospitals section is the string ["Nearest One"],
    neither a PlaceRecord nor absent. *)
Lemma nearest_is_not_a_place_record :
  sample_insights sample_client
  = (Ok (Success (sample_report sample_client)), sample_trace sample_client) /\
  json_get "nearest"
    (hospital_section_to_json (hospitals (family_life (sample_report sample_client))))
  = Some (JStr "Nearest One") /\
  ~ (is_place_record (JStr "Nearest One") = true \/
     is_absent (JStr "Nearest One") = true).
Proof.
  split; [vm_compute; reflexivity|]. split; [vm_compute; reflexivity|].
  intros [E | E]; discriminate E.
Qed.

(** C7, amended.  The [nearest] field of the hospitals and subway
    sections is the name (a string, or null) of the first result of the
    nearest-of-type search of that type, null when that search found nothing
    or failed; it is never a PlaceRecord. *)
Theorem nearest_field_is_the_name googlemaps address api_key h i new :
  get_neighborhood_insights googlemaps address api_key h
  = (Ok (Success i), h ++ new) ->
  h_nearest (hospitals (family_life i))
  = name_of (nearest_result "hospital" new) /\
  s_nearest (subway (transport i))
  = name_of (nearest_result "subway_station" new) /\
  json_get "nearest" (hospital_section_to_json (hospitals (family_life i)))
  = Some (json_opt JStr (name_of (nearest_result "hospital" new))) /\
  json_get "nearest" (subway_section_to_json (subway (transport i)))
  = Some (json_opt JStr (name_of (nearest_result "subway_station" new))) /\
  forall o : option string, is_place_record (json_opt JStr o) = false.
Proof.
  intros Hrun.
  apply get_neighborhood_insights_success in Hrun.
  destruct Hrun as (g & geo & n & _ & _ & En & ->).
  apply app_inv_head in En. subst n.
  repeat split. intros [s|]; reflexivity.
Qed.

Lemma nearest_field_is_the_name_witness :
  h_nearest (hospitals (family_life (sample_report sample_client)))
  = Some "Nearest One" /\
  json_get "nearest"
    (hospital_section_to_json (hospitals (family_life (sample_report sample_client))))
  = Some (JStr "Nearest One").
Proof.
  destruct (nearest_field_is_the_name (module_of sample_client) "Kadikoy"
              "AIza-key" [] (sample_report sample_client)
              (sample_trace sample_client) ltac:(vm_compute; reflexivity))
    as (A & _ & C & _).
  split; [rewrite A | rewrite C]; vm_compute; reflexivity.
Defined.

Lemma section_items_In i c x new address geo :
  i = assemble address geo (queries_of_trace new) ->
  In x (section_items i c) ->
  In x (provider_list (place_type_of c) new).
Proof.
  intros -> H.
  destruct c; cbn [section_items assemble top h_top s_alternatives social_life
                   family_life transport cafes shopping_malls parks gyms schools
                   hospitals pharmacies subway] in H;
    apply slice_to_In in H; try apply (proj1 (rank_In _ _)) in H; try exact H.
  apply filter_In in H. exact (proj1 H).
Qed.

(** C8.  A missing rating or user_ratings_total counts as zero in the
    sort key, which is the least key among records with non-negative values;
    and every record of a section's list is the normalization of a payload
    record of that category, with the payload's rating and count: when the
    payload omits them the record carries [None], rendered as null, not 0. *)
Theorem absent_ratings_stay_absent googlemaps address api_key h i new :
  get_neighborhood_insights googlemaps address api_key h
  = (Ok (Success i), h ++ new) ->
  (forall x, rating x = None -> fst (safe_sort_key x) = 0%Q) /\
  (forall x, user_ratings_total x = None -> snd (safe_sort_key x) = 0) /\
  (forall x y,
      rating x = None -> user_ratings_total x = None ->
      (forall r, rating y = Some r -> (0 <= r)%Q) ->
      (forall n, user_ratings_total y = Some n -> 0 <= n) ->
      key_le (safe_sort_key x) (safe_sort_key y)) /\
  forall c x,
    In x (section_items i c) ->
    exists p,
      In (RawDict p) (payload (proximity_calls (place_type_of c) new)) /\
      rating x = get (raw_rating p) /\
      user_ratings_total x = get (raw_user_ratings_total p) /\
      (raw_rating p = Missing ->
       rating x = None /\ json_get "rating" (place_to_json x) = Some JNull) /\
      (raw_user_ratings_total p = Missing ->
       user_ratings_total x = None /\
       json_get "user_ratings_total" (place_to_json x) = Some JNull).
Proof.
  intros Hrun.
  split; [|split; [|split]].
  - intros x Hx. unfold safe_sort_key. rewrite Hx. reflexivity.
  - intros x Hx. unfold safe_sort_key. rewrite Hx. reflexivity.
  - intros x y Hr Hc Hyr Hyc. unfold safe_sort_key, key_le. rewrite Hr, Hc. simpl.
    destruct (rating y) as [r|]; destruct (user_ratings_total y) as [n|];
      try specialize (Hyr _ eq_refl); try specialize (Hyc _ eq_refl).
    + apply Qle_lt_or_eq in Hyr. destruct Hyr as [Hlt | Heq]; [left; exact Hlt|].
      right. split; [exact Heq | exact Hyc].
    + apply Qle_lt_or_eq in Hyr. destruct Hyr as [Hlt | Heq]; [left; exact Hlt|].
      right. split; [exact Heq | lia].
    + right. split; [reflexivity | exact Hyc].
    + right. split; [reflexivity | lia].
  - intros c x Hx.
    apply get_neighborhood_insights_success in Hrun.
    destruct Hrun as (g & geo & n & _ & _ & En & Hi).
    apply app_inv_head in En. subst n.
    apply (section_items_In _ _ _ _ _ _ Hi) in Hx.
    apply provider_list_In in Hx. destruct Hx as (p & Hp & Hn).
    exists p. split; [exact Hp|].
    injection Hn as <-. simpl.
    split; [reflexivity|]. split; [reflexivity|].
    split; intros ->; split; reflexivity.
Qed.

(** C9.  The pharmacies [top] and the subway [alternatives] are the
    first [top_n] records of the provider's list in arrival order; the lists
    of the six other sections are the first [top_n] of the ranked list. *)
Theorem ranked_and_unranked_sections googlemaps address api_key h i new :
  get_neighborhood_insights googlemaps address api_key h
  = (Ok (Success i), h ++ new) ->
  top (pharmacies (family_life i))
  = slice_to (top_n default_cfg) (provider_list "pharmacy" new) /\
  s_alternatives (subway (transport i))
  = slice_to (top_n default_cfg) (provider_list "subway_station" new) /\
  forall c,
    section_items i c
    = slice_to (top_n default_cfg)
        (if is_ranked c
         then rank (post_filter c (provider_list (place_type_of c) new))
         else provider_list (place_type_of c) new).
Proof.
  intros Hrun.
  apply get_neighborhood_insights_success in Hrun.
  destruct Hrun as (g & geo & n & _ & _ & En & ->).
  apply app_inv_head in En. subst n.
  split; [reflexivity|]. split; [reflexivity|].
  intros c. destruct c; reflexivity.
Qed.

Lemma absent_ratings_stay_absent_witness :
  In beta (section_items (sample_report sample_client) Cafe) /\
  exists p,
    In (RawDict p) (payload (proximity_calls "cafe" (sample_trace sample_client))) /\
    rating beta = get (raw_rating p) /\
    user_ratings_total beta = get (raw_user_ratings_total p).
Proof.
  assert (Hin : In beta (section_items (sample_report sample_client) Cafe))
    by (vm_compute; tauto).
  split; [exact Hin|].
  destruct (absent_ratings_stay_absent (module_of sample_client) "Kadikoy"
              "AIza-key" [] (sample_report sample_client)
              (sample_trace sample_client) ltac:(vm_compute; reflexivity))
    as (_ & _ & _ & H).
  destruct (H Cafe beta Hin) as (p & A & B & C & _).
  exists p. split; [exact A|]. split; [exact B | exact C].
Defined.

Lemma ranked_and_unranked_sections_witness :
  map name (top (pharmacies (family_life (sample_report sample_client))))
  = [Some "Alfa"; Some "Beta"; Some "Gama"; Some "Alfa"; Some "Beta"] /\
  map name (section_items (sample_report sample_client) Cafe)
  = [Some "Gama"; Some "Gama"; Some "Alfa"; Some "Alfa"; Some "Beta"].
Proof.
  destruct (ranked_and_unranked_sections (module_of sample_client) "Kadikoy"
              "AIza-key" [] (sample_report sample_client)
              (sample_trace sample_client) ltac:(vm_compute; reflexivity))
    as (A & _ & C).
  rewrite A, (C Cafe). split; vm_compute; reflexivity.
Defined.

(** C10 as stated does not hold: without a credential in the
    environment the POST with an empty address is answered 500, not 400. *)
Lemma empty_address_without_credential :
  fst (handler (module_of sample_client) None
         {| method := "POST"; get_json := Ok (DataDict (Present "")) |} [])
  = Ok (error_response 500 "GOOGLE_MAPS_API_KEY not set") /\
  fst (handler (module_of sample_client) None
         {| method := "POST"; get_json := Ok (DataDict (Present "")) |} [])
  <> Ok (error_response 400 "Address is required").
Proof.
  split; [reflexivity|]. vm_compute. discriminate.
Qed.

(** C10, amended.  A POST whose body carries [""] for address gets the
    response a POST without the address field gets, and no provider operation
    is called; with a non-empty credential configured that response is the
    400 "Address is required", without one it is the 500
    "GOOGLE_MAPS_API_KEY not set". *)
Theorem empty_address_is_missing_address googlemaps environ_key request h :
  method request = "POST" ->
  get_json request = Ok (DataDict (Present "")) ->
  handler googlemaps environ_key request h
  = handler googlemaps environ_key
      {| method := "POST"; get_json := Ok (DataDict Missing) |} h /\
  snd (handler googlemaps environ_key request h) = h /\
  (falsy environ_key = false ->
   handler googlemaps environ_key request h
   = (Ok (error_response 400 "Address is required"), h)) /\
  (falsy environ_key = true ->
   handler googlemaps environ_key request h
   = (Ok (error_response 500 "GOOGLE_MAPS_API_KEY not set"), h)).
Proof.
  intros Hm Hj. unfold handler, try_except. rewrite Hm, Hj. simpl.
  destruct (falsy environ_key); simpl; repeat split; intros; congruence.
Qed.

Lemma empty_address_is_missing_address_witness :
  handler (module_of sample_client) (Some "AIza-key")
    {| method := "POST"; get_json := Ok (DataDict (Present "")) |} []
  = (Ok (error_response 400 "Address is required"), []).
Proof.
  apply (empty_address_is_missing_address (module_of sample_client)
           (Some "AIza-key")
           {| method := "POST"; get_json := Ok (DataDict (Present "")) |} []
           eq_refl eq_refl).
  reflexivity.
Defined.

(** * More of the code *)

(** ** The shape of a proximity search *)

Lemma last_cons_default {A} (x d : A) l : last (x :: l) d = last l x.
Proof.
  revert x d. induction l as [|y l IH]; intros x d; [reflexivity|].
  change (last (x :: y :: l) d) with (last (y :: l) d).
  rewrite IH. symmetry. apply IH.
Qed.

Section Shape.
Variables (gmaps : client) (latitude longitude : Q) (place_type : string)
          (radius : Z).

Lemma pagination_shape remaining :
  forall response all_places h,
  exists new,
    snd (pagination gmaps latitude longitude place_type radius remaining
           response all_places h) = h ++ new /\
    follow_up_blocks new /\
    Forall (fun c => same_search latitude longitude place_type radius (fst c))
      (nearby_calls new) /\
    (len (nearby_calls new) <= remaining)%nat /\
    sleep_total new = 2 * Z.of_nat (len (nearby_calls new)) /\
    ((len (nearby_calls new) < remaining)%nat ->
     exhausted (last (map snd (nearby_calls new)) (Ok response))).
Proof.
  induction remaining as [|remaining' IH]; intros response all_places h.
  - exists []. simpl. destruct (next_page_token response);
      simpl; rewrite !app_nil_r; repeat split; auto; unfold len; simpl; lia.
  - cbn [pagination]. destruct (next_page_token response) as [token|] eqn:Etok.
    2:{ exists []. unfold ret. cbn [fst snd]. rewrite !app_nil_r.
        repeat split; auto. unfold len; simpl; lia. }
    unfold bind, sleep, call_places_nearby. cbv beta iota zeta.
    set (req := page_request latitude longitude place_type radius (Some token)).
    destruct (places_nearby gmaps (h ++ [EvSleep 2]) req) as [response'|msg] eqn:Eout.
    + destruct (IH response' (all_places ++ results response')
                  ((h ++ [EvSleep 2]) ++ [EvNearby req (Ok response')]))
        as (new & Hsnd & Hblocks & Hsame & Hlen & Hsleep & Hex).
      exists (EvSleep 2 :: EvNearby req (Ok response') :: new).
      rewrite Hsnd. split; [rewrite <- !app_assoc; reflexivity|].
      split; [simpl; auto|]. split; [|split; [|split]].
      * simpl. constructor; [repeat split|exact Hsame].
      * unfold len in *. simpl. lia.
      * change (sleep_total (EvSleep 2 :: EvNearby req (Ok response') :: new))
          with (2 + sleep_total new).
        rewrite Hsleep. unfold len.
        change (nearby_calls (EvSleep 2 :: EvNearby req (Ok response') :: new))
          with ((req, Ok response') :: nearby_calls new).
        cbn [List.length]. lia.
      * intros Hlt. unfold len in Hlt, Hex. simpl in Hlt.
        assert (Hlt' : (List.length (nearby_calls new) < remaining')%nat) by lia.
        specialize (Hex Hlt').
        change (map snd (nearby_calls (EvSleep 2 :: EvNearby req (Ok response') :: new)))
          with (Ok response' :: map snd (nearby_calls new)).
        rewrite last_cons_default. exact Hex.
    + exists [EvSleep 2; EvNearby req (Raise msg)]. cbn [fst snd].
      split; [rewrite <- app_assoc; reflexivity|].
      split; [simpl; auto|].
      split; [constructor; [repeat split|constructor]|].
      split; [unfold len; simpl; lia|]. split; [reflexivity|].
      intros _. exact I.
Qed.
End Shape.

(** The shape of the trace one proximity search leaves. *)
Lemma find_places_nearby_shape latitude longitude place_type gmaps radius max_pages h :
  exists out rest,
    snd (find_places_nearby latitude longitude place_type gmaps radius max_pages h)
    = h ++ EvNearby (page_request latitude longitude place_type radius None) out
           :: rest /\
    follow_up_blocks rest /\
    Forall (fun c => same_search latitude longitude place_type radius (fst c))
      (nearby_calls rest) /\
    (len (nearby_calls rest) <= Z.to_nat (max_pages - 1))%nat /\
    sleep_total rest = 2 * Z.of_nat (len (nearby_calls rest)) /\
    ((len (nearby_calls rest) < Z.to_nat (max_pages - 1))%nat ->
     exhausted (last (map snd (nearby_calls rest)) out)).
Proof.
  unfold find_places_nearby, try_except, bind, call_places_nearby.
  set (req := page_request latitude longitude place_type radius None).
  destruct (places_nearby gmaps h req) as [response|msg] eqn:Eout.
  - destruct (pagination_shape gmaps latitude longitude place_type radius
                (Z.to_nat (max_pages - 1)) response ([] ++ results response)
                (h ++ [EvNearby req (Ok response)]))
      as (rest & Hsnd & Hblocks & Hsame & Hlen & Hsleep & Hex).
    exists (Ok response), rest.
    split; [|split; [exact Hblocks|split; [exact Hsame|split; [exact Hlen|
      split; [exact Hsleep|exact Hex]]]]].
    destruct (pagination _ _ _ _ _ _ _ _ _) as [[all|msg] h'];
      simpl in Hsnd; subst h'.
    + unfold lift. destruct (normalize_all all); simpl;
        rewrite <- app_assoc; reflexivity.
    + simpl. rewrite <- app_assoc. reflexivity.
  - exists (Raise msg), []. simpl. repeat split; auto. unfold len; simpl; lia.
Qed.

Lemma same_search_first latitude longitude place_type radius :
  same_search latitude longitude place_type radius
    (page_request latitude longitude place_type radius None).
Proof. repeat split. Qed.

(** X14.  The trace of [find_places_nearby] is its first request, without
    token and without a sleep before it, followed only by pairs of a
    two-second sleep and a follow-up request. *)
Theorem follow_ups_wait_two_seconds latitude longitude place_type gmaps radius
  max_pages h :
  exists req out rest,
    snd (find_places_nearby latitude longitude place_type gmaps radius max_pages h)
    = h ++ EvNearby req out :: rest /\
    page_token req = None /\
    follow_up_blocks rest.
Proof.
  destruct (find_places_nearby_shape latitude longitude place_type gmaps radius
              max_pages h) as (out & rest & E & B & _).
  exists (page_request latitude longitude place_type radius None), out, rest.
  split; [exact E|]. split; [reflexivity|exact B].
Qed.

(** X15.  Every request of [find_places_nearby], follow-ups included,
    carries the location, radius and type it was called with and no
    [rank_by]. *)
Theorem pages_repeat_the_search latitude longitude place_type gmaps radius
  max_pages h :
  exists new,
    snd (find_places_nearby latitude longitude place_type gmaps radius max_pages h)
    = h ++ new /\
    Forall (fun c => same_search latitude longitude place_type radius (fst c))
      (nearby_calls new).
Proof.
  destruct (find_places_nearby_shape latitude longitude place_type gmaps radius
              max_pages h) as (out & rest & E & _ & S & _).
  eexists. split; [exact E|].
  constructor; [apply same_search_first | exact S].
Qed.

(** X16.  [find_places_nearby] stops short of [max_pages] requests only
    when its last request raised or its last response carried no
    [next_page_token]. *)
Theorem paging_stops_only_at_the_end latitude longitude place_type gmaps radius
  max_pages h :
  exists new,
    snd (find_places_nearby latitude longitude place_type gmaps radius max_pages h)
    = h ++ new /\
    (Z.of_nat (len (nearby_calls new)) < max_pages ->
     exhausted (last (map snd (nearby_calls new)) (Raise ""))).
Proof.
  destruct (find_places_nearby_shape latitude longitude place_type gmaps radius
              max_pages h) as (out & rest & E & _ & _ & _ & _ & X).
  eexists. split; [exact E|].
  intros Hlt.
  change (map snd (nearby_calls (EvNearby (page_request latitude longitude
                                             place_type radius None) out :: rest)))
    with (out :: map snd (nearby_calls rest)).
  rewrite last_cons_default. apply X.
  unfold len in *. simpl in Hlt. lia.
Qed.

Lemma paging_stops_only_at_the_end_witness :
  exists new,
    snd (find_places_nearby (41 # 1) (29 # 1) "shopping_mall" sample_client 5000 2 [])
    = [] ++ new /\
    len (nearby_calls new) = 1%nat /\
    exhausted (last (map snd (nearby_calls new)) (Raise "")).
Proof.
  destruct (paging_stops_only_at_the_end (41 # 1) (29 # 1) "shopping_mall"
              sample_client 5000 2 []) as (new & E & X).
  exists new. split; [exact E|].
  assert (N : new = [EvNearby (page_request (41 # 1) (29 # 1) "shopping_mall" 5000 None)
                       (Ok mall_page)])
    by (apply (app_inv_head []); rewrite <- E; reflexivity).
  split; [rewrite N; reflexivity|].
  apply X. rewrite N. vm_compute. reflexivity.
Defined.

(** ** Normalization and the nearest-of-type search *)

Lemma normalize_all_malformed l :
  In RawOther l -> exists msg, normalize_all l = Raise msg.
Proof.
  induction l as [|item l IH]; intros Hin; [destruct Hin|].
  simpl. destruct Hin as [-> | Hin]; [eexists; reflexivity|].
  destruct (normalize item); [|eexists; reflexivity].
  destruct (IH Hin) as (msg & ->). eexists; reflexivity.
Qed.

Lemma normalize_all_map l places :
  normalize_all l = Ok places <-> map normalize l = map Ok places.
Proof.
  revert places. induction l as [|item l IH]; intros places; simpl.
  - split.
    + intros [= <-]. reflexivity.
    + destruct places; [reflexivity|discriminate].
  - split.
    + destruct (normalize item) as [p|]; [|discriminate].
      destruct (normalize_all l) as [ps|] eqn:E; [|discriminate].
      intros [= <-]. simpl. f_equal. apply IH. reflexivity.
    + destruct places as [|p ps]; [discriminate|]. simpl. intros [= -> H].
      apply IH in H. rewrite H. reflexivity.
Qed.

Lemma normalize_all_dicts l :
  ~ In RawOther l -> exists places, normalize_all l = Ok places.
Proof.
  induction l as [|item l IH]; intros Hno; [eexists; reflexivity|].
  simpl. destruct item as [p|]; [|exfalso; apply Hno; left; reflexivity].
  simpl. destruct IH as (places & ->); [intros H; apply Hno; right; exact H|].
  eexists; reflexivity.
Qed.

Lemma find_places_nearby_result latitude longitude place_type gmaps radius
  max_pages h places new :
  find_places_nearby latitude longitude place_type gmaps radius max_pages h
  = (Ok places, h ++ new) ->
  places = (if raised (nearby_calls new) then []
            else match normalize_all (payload (nearby_calls new)) with
                 | Ok l => l
                 | Raise _ => []
                 end).
Proof.
  intros H.
  destruct (find_places_nearby_spec latitude longitude place_type gmaps radius
              max_pages h) as (n & E & Hseg & _).
  rewrite E in H. injection H as <- H. apply app_inv_head in H. subst n.
  unfold provider_list. rewrite (proximity_calls_segment _ _ Hseg). reflexivity.
Qed.

(** X17.  When any element of any page fetched is not a dict,
    [find_places_nearby] returns the empty list. *)
Theorem malformed_element_empties_the_list latitude longitude place_type gmaps
  radius max_pages h places new :
  find_places_nearby latitude longitude place_type gmaps radius max_pages h
  = (Ok places, h ++ new) ->
  In RawOther (payload (nearby_calls new)) ->
  places = [].
Proof.
  intros H Hin. rewrite (find_places_nearby_result _ _ _ _ _ _ _ _ _ H).
  destruct (raised _); [reflexivity|].
  destruct (normalize_all_malformed _ Hin) as (msg & ->). reflexivity.
Qed.

(** X18.  When no request raised and every element is a dict,
    [find_places_nearby] returns the normalization of every element of every
    page, in arrival order: as many records as the pages delivered. *)
Theorem well_formed_pages_are_kept_in_order latitude longitude place_type gmaps
  radius max_pages h places new :
  find_places_nearby latitude longitude place_type gmaps radius max_pages h
  = (Ok places, h ++ new) ->
  raised (nearby_calls new) = false ->
  ~ In RawOther (payload (nearby_calls new)) ->
  map normalize (payload (nearby_calls new)) = map Ok places /\
  len places = len (payload (nearby_calls new)).
Proof.
  intros H Hr Hno. rewrite (find_places_nearby_result _ _ _ _ _ _ _ _ _ H), Hr.
  destruct (normalize_all_dicts _ Hno) as (l & E). rewrite E.
  split; [apply normalize_all_map; exact E|].
  apply normalize_all_length. exact E.
Qed.

Lemma find_nearest_place_eq latitude longitude place_type gmaps h :
  exists req,
    find_nearest_place latitude longitude place_type gmaps h
    = (Ok match places_nearby gmaps h req with
          | Ok response =>
              match results response with
              | RawDict p :: _ =>
                  Some {| n_name := get (raw_name p);
                          n_rating := get (raw_rating p) |}
              | _ => None
              end
          | Raise _ => None
          end,
       h ++ [EvNearby req (places_nearby gmaps h req)]) /\
    location req = (latitude, longitude) /\
    type req = place_type /\
    rank_by req = Some "distance" /\
    radius req = None /\
    page_token req = None.
Proof.
  exists {| location := (latitude, longitude); radius := None;
            type := place_type; page_token := None;
            rank_by := Some "distance" |}.
  split; [|repeat split].
  unfold find_nearest_place, try_except, bind, call_places_nearby.
  destruct (places_nearby gmaps h _) as [response|msg]; [|reflexivity].
  destruct (results response) as [|[p|] rest]; reflexivity.
Qed.

(** X19.  [find_nearest_place] never raises and issues exactly one
    request, distance-ranked, without radius or token, whatever the response
    carries; it returns [None] exactly when the request raised, the results
    are empty or the first result is not a dict, and otherwise the name and
    rating of the first result. *)
Theorem nearest_search_is_one_request latitude longitude place_type gmaps h :
  exists answer req out,
    find_nearest_place latitude longitude place_type gmaps h
    = (Ok answer, h ++ [EvNearby req out]) /\
    location req = (latitude, longitude) /\
    type req = place_type /\
    rank_by req = Some "distance" /\
    radius req = None /\
    page_token req = None /\
    (answer = None <->
     match out with
     | Ok response =>
         match results response with
         | RawDict _ :: _ => False
         | _ => True
         end
     | Raise _ => True
     end) /\
    forall n, answer = Some n ->
      exists response p rest,
        out = Ok response /\ results response = RawDict p :: rest /\
        n_name n = get (raw_name p) /\ n_rating n = get (raw_rating p).
Proof.
  destruct (find_nearest_place_eq latitude longitude place_type gmaps h)
    as (req & E & A & B & C & D & F).
  eexists _, req, _. split; [exact E|].
  repeat (split; [assumption|]).
  destruct (places_nearby gmaps h req) as [response|msg].
  - destruct (results response) as [|[p|] rest] eqn:Er.
    + split; [tauto|discriminate].
    + split; [split; [discriminate|contradiction]|].
      intros n [= <-]. exists response, p, rest. auto.
    + split; [tauto|discriminate].
  - split; [tauto|discriminate].
Qed.

(** ** The handler *)

Lemma error_response_well_formed status msg :
  In status [400; 405; 500] -> well_formed_response (error_response status msg).
Proof.
  intros H. unfold well_formed_response. simpl.
  split; [destruct H as [<- | [<- | [<- | []]]]; auto|].
  split; [auto|]. split; [auto|]. exists false. split; [reflexivity|discriminate].
Qed.

Lemma report_ok r :
  json_get "ok" (report_to_json r)
  = Some (JBool match r with Success _ => true | Failure _ _ => false end).
Proof. destruct r; reflexivity. Qed.

(** X1.  Whatever the request, the environment and the provider, [handler]
    returns a response and does not raise: status 200, 400, 405 or 500, the
    CORS and JSON headers, and a body with a boolean ["ok"] that is true only
    under status 200. *)
Theorem handler_always_answers googlemaps environ_key request h :
  exists resp new,
    handler googlemaps environ_key request h = (Ok resp, h ++ new) /\
    well_formed_response resp.
Proof.
  unfold handler, try_except.
  destruct (String.eqb (method request) "OPTIONS").
  { eexists _, []. rewrite app_nil_r. split; [reflexivity|].
    unfold well_formed_response. simpl. split; [auto|]. split; [auto|].
    split; [auto 10|]. exists true. split; reflexivity. }
  destruct (String.eqb (method request) "POST"); simpl.
  2:{ eexists _, []. rewrite app_nil_r. split; [reflexivity|].
      apply error_response_well_formed. simpl. auto. }
  destruct (falsy environ_key).
  { eexists _, []. rewrite app_nil_r. split; [reflexivity|].
    apply error_response_well_formed. simpl. auto. }
  destruct (get_json request) as [data|msg].
  2:{ eexists _, []. rewrite app_nil_r. split; [reflexivity|].
      apply error_response_well_formed. simpl. auto. }
  unfold bind. destruct data as [address|err]; simpl.
  2:{ eexists _, []. rewrite app_nil_r. split; [reflexivity|].
      apply error_response_well_formed. simpl. auto. }
  destruct (falsy (get address)); simpl.
  { eexists _, []. rewrite app_nil_r. split; [reflexivity|].
    apply error_response_well_formed. simpl. auto. }
  destruct (get_neighborhood_insights_total googlemaps
              (match get address with Some a => a | None => "" end)
              (match environ_key with Some k => k | None => "" end) h)
    as (r & new & E).
  rewrite E. simpl. eexists _, new. split; [reflexivity|].
  unfold well_formed_response. simpl. split; [auto|]. split; [auto|].
  split; [auto|]. rewrite report_ok. eexists. split; reflexivity.
Qed.

(** X2.  For a request whose body, when it is a JSON object, carries a
    string or null address or none, [handler] touches the provider only if
    the method is POST, the credential is non-empty and the address is a
    non-empty string: otherwise the history is left as it was. *)
Theorem provider_reached_only_by_complete_post googlemaps environ_key request h :
  snd (handler googlemaps environ_key request h) <> h ->
  method request = "POST" /\
  (exists api_key, environ_key = Some api_key /\ api_key <> "") /\
  (exists address, get_json request = Ok (DataDict (Present address)) /\
                   address <> "").
Proof.
  unfold handler, try_except.
  destruct (String.eqb (method request) "OPTIONS"); [simpl; congruence|].
  destruct (String.eqb_spec (method request) "POST") as [Hm|Hm];
    simpl; [|congruence].
  destruct environ_key as [api_key|]; [|simpl; congruence].
  simpl. destruct (String.eqb_spec api_key "") as [Hk|Hk]; [simpl; congruence|].
  destruct (get_json request) as [[address|err]|msg]; try (simpl; congruence).
  unfold bind. destruct address as [| |address]; try (simpl; congruence).
  simpl. destruct (String.eqb_spec address "") as [Ha|Ha]; [simpl; congruence|].
  intros _. split; [exact Hm|]. split; [exists api_key; auto|].
  exists address. auto.
Qed.

Lemma provider_reached_only_by_complete_post_witness :
  snd (handler (module_of sample_client) (Some "AIza-key")
         {| method := "POST"; get_json := Ok (DataDict (Present "Kadikoy")) |} [])
  <> [] /\
  exists address,
    Ok (DataDict (Present "Kadikoy")) = Ok (DataDict (Present address)) /\
    address <> "".
Proof.
  assert (H : snd (handler (module_of sample_client) (Some "AIza-key")
                     {| method := "POST";
                        get_json := Ok (DataDict (Present "Kadikoy")) |} [])
              <> []) by (vm_compute; discriminate).
  split; [exact H|].
  exact (proj2 (proj2 (provider_reached_only_by_complete_post _ _ _ _ H))).
Defined.

(** X3.  [handler] checks in this order: the method (405), the credential
    (500, even when the body is unreadable), the JSON body (400, or 500 with
    the exception's message when the body has no [.get]), and the address
    (400 for a missing, null or empty one); none of these touches the
    provider. *)
Theorem handler_checks_in_order googlemaps environ_key request h :
  (method request <> "OPTIONS" -> method request <> "POST" ->
   handler googlemaps environ_key request h
   = (Ok (error_response 405 "Method not allowed. Use POST."), h)) /\
  (method request = "POST" -> falsy environ_key = true ->
   handler googlemaps environ_key request h
   = (Ok (error_response 500 "GOOGLE_MAPS_API_KEY not set"), h)) /\
  (method request = "POST" -> falsy environ_key = false ->
   forall msg, get_json request = Raise msg ->
   handler googlemaps environ_key request h
   = (Ok (error_response 400 "Invalid JSON"), h)) /\
  (method request = "POST" -> falsy environ_key = false ->
   forall err, get_json request = Ok (DataOther err) ->
   handler googlemaps environ_key request h
   = (Ok (error_response 500 err), h)) /\
  (method request = "POST" -> falsy environ_key = false ->
   forall address, get_json request = Ok (DataDict address) ->
   falsy (get address) = true ->
   handler googlemaps environ_key request h
   = (Ok (error_response 400 "Address is required"), h)).
Proof.
  unfold handler, try_except. repeat split.
  - intros H1 H2. apply String.eqb_neq in H1, H2. rewrite H1, H2. reflexivity.
  - intros -> ->. reflexivity.
  - intros -> -> msg ->. reflexivity.
  - intros -> -> err ->. reflexivity.
  - intros -> -> address -> Hf. simpl. unfold bind. simpl. rewrite Hf. reflexivity.
Qed.

(** X4.  A POST with a credential and a non-empty address that cannot be
    geocoded (no result, or the geocoder raised) is answered with status
    200, not with an error status: the body is the failure dict with the
    address in [error] and [query], and geocoding is the only provider
    call. *)
Theorem failed_geocoding_is_answered_200 googlemaps api_key address gmaps
  request h :
  method request = "POST" ->
  api_key <> "" ->
  get_json request = Ok (DataDict (Present address)) ->
  address <> "" ->
  Client googlemaps api_key = Ok gmaps ->
  (geocode gmaps h address "tr" = Ok [] \/
   exists msg, geocode gmaps h address "tr" = Raise msg) ->
  handler googlemaps (Some api_key) request h
  = (Ok {| statusCode := 200;
           headers := cors_json_headers;
           body := JDict [("ok", JBool false);
                          ("error",
                            JStr ("Could not geocode the address: " +++ address));
                          ("query", JStr address)] |},
     h ++ [EvGeocode address "tr" (geocode gmaps h address "tr")]).
Proof.
  intros Hm Hk Hj Ha HC Hgeo.
  assert (E : geo_of_outcome (geocode gmaps h address "tr") = None)
    by (destruct Hgeo as [-> | [msg ->]]; reflexivity).
  unfold handler, try_except. rewrite Hm, Hj. simpl.
  apply String.eqb_neq in Hk, Ha. rewrite Hk. unfold bind. simpl. rewrite Ha.
  rewrite get_neighborhood_insights_eq, HC, geocode_address_spec, E.
  reflexivity.
Qed.

(** ** The requests of a run *)

Lemma geocode_calls_app h1 h2 :
  geocode_calls (h1 ++ h2) = geocode_calls h1 ++ geocode_calls h2.
Proof. apply flat_map_app. Qed.

Lemma sleep_total_app h1 h2 :
  sleep_total (h1 ++ h2) = sleep_total h1 + sleep_total h2.
Proof.
  induction h1 as [|e h1 IH]; [reflexivity|].
  change (sleep_total ((e :: h1) ++ h2))
    with (match e with EvSleep secs => secs + sleep_total (h1 ++ h2)
                  | _ => sleep_total (h1 ++ h2) end).
  change (sleep_total (e :: h1))
    with (match e with EvSleep secs => secs + sleep_total h1
                  | _ => sleep_total h1 end).
  rewrite IH. destruct e; lia.
Qed.

Lemma searches_app lat lng lo1 hi1 lo2 hi2 s1 s2 :
  searches lat lng lo1 hi1 s1 -> searches lat lng lo2 hi2 s2 ->
  searches lat lng (lo1 + lo2) (hi1 + hi2) (s1 ++ s2).
Proof.
  intros (G1 & L1 & S1 & P1) (G2 & L2 & S2 & P2). unfold searches.
  rewrite geocode_calls_app, nearby_calls_app, sleep_total_app, G1, G2, S1, S2.
  unfold len in *. rewrite List.length_app.
  split; [reflexivity|]. split; [lia|]. split; [lia|].
  apply Forall_app. split; assumption.
Qed.

Lemma proximity_segment_no_geocode t seg :
  Forall (proximity_event t) seg -> geocode_calls seg = [].
Proof.
  induction 1 as [|e seg He _ IH]; [reflexivity|].
  change (e :: seg) with ([e] ++ seg). rewrite geocode_calls_app, IH.
  destruct e; simpl in *; [contradiction|reflexivity|reflexivity].
Qed.

Lemma find_places_nearby_searches lat lng (c : category) gmaps h :
  exists seg,
    find_places_nearby lat lng (place_type_of c) gmaps (radius_of c)
      default_max_pages h
    = (Ok (provider_list (place_type_of c) seg), h ++ seg) /\
    Forall (proximity_event (place_type_of c)) seg /\
    searches lat lng 1 2 seg.
Proof.
  destruct (find_places_nearby_spec lat lng (place_type_of c) gmaps (radius_of c)
              default_max_pages h) as (seg & E & Hseg & _).
  destruct (find_places_nearby_shape lat lng (place_type_of c) gmaps (radius_of c)
              default_max_pages h)
    as (out & rest & Es & _ & Hsame & Hlen & Hsleep & _).
  rewrite E in Es. simpl in Es. apply app_inv_head in Es.
  exists seg. split; [exact E|]. split; [exact Hseg|].
  split; [exact (proximity_segment_no_geocode _ _ Hseg)|].
  rewrite Es.
  change (nearby_calls (EvNearby (page_request lat lng (place_type_of c)
                                    (radius_of c) None) out :: rest))
    with ((page_request lat lng (place_type_of c) (radius_of c) None, out)
            :: nearby_calls rest).
  change (sleep_total (EvNearby (page_request lat lng (place_type_of c)
                                    (radius_of c) None) out :: rest))
    with (sleep_total rest).
  unfold len in *. cbn [List.length].
  change (Z.to_nat (default_max_pages - 1)) with 1%nat in Hlen.
  split; [lia|]. split; [lia|].
  assert (P : forall req, same_search lat lng (place_type_of c) (radius_of c) req ->
                          planned_request lat lng req).
  { intros req (A & B & C & D). split; [exact A|]. left. split; [exact D|].
    exists c. split; assumption. }
  constructor; [apply P, same_search_first|].
  eapply Forall_impl; [|exact Hsame]. intros a. apply P.
Qed.

Lemma find_nearest_place_searches lat lng t gmaps h :
  t = "hospital" \/ t = "subway_station" ->
  exists seg,
    find_nearest_place lat lng t gmaps h = (Ok (nearest_result t seg), h ++ seg) /\
    Forall (nearest_event t) seg /\
    searches lat lng 1 1 seg.
Proof.
  intros Ht.
  destruct (find_nearest_place_spec lat lng t gmaps h) as (seg & E & Hseg).
  destruct (find_nearest_place_eq lat lng t gmaps h)
    as (req & E' & A & B & C & D & F).
  rewrite E in E'. injection E' as _ E'. apply app_inv_head in E'.
  exists seg. split; [exact E|]. split; [exact Hseg|]. rewrite E'.
  split; [reflexivity|]. split; [unfold len; simpl; lia|].
  split; [reflexivity|]. constructor; [|constructor].
  split; [exact A|]. right. cbn [fst]. rewrite B. auto.
Qed.

Lemma run_queries_searches gmaps lat lng h :
  exists new,
    run_queries gmaps lat lng h = (Ok (queries_of_trace new), h ++ new) /\
    searches lat lng 10 18 new /\
    forall c, (len (proximity_calls (place_type_of c) new) <= 2)%nat.
Proof.
  destruct (run_queries_spec gmaps lat lng h) as (new & E & _).
  exists new. split; [exact E|].
  pose proof (f_equal snd E) as S. simpl in S. clear E.
  unfold run_queries, bind in S. cbv zeta in S.
  destruct (find_places_nearby_searches lat lng Cafe gmaps h) as (s1 & E1 & F1 & B1).
  change (place_type_of Cafe) with "cafe" in E1.
  change (radius_of Cafe) with (r_cafe (radii default_cfg)) in E1.
  rewrite E1 in S.
  destruct (find_places_nearby_searches lat lng ShoppingMall gmaps (h ++ s1))
    as (s2 & E2 & F2 & B2).
  change (place_type_of ShoppingMall) with "shopping_mall" in E2.
  change (radius_of ShoppingMall) with (r_shopping_mall (radii default_cfg)) in E2.
  rewrite E2 in S.
  destruct (find_places_nearby_searches lat lng Park gmaps ((h ++ s1) ++ s2))
    as (s3 & E3 & F3 & B3).
  change (place_type_of Park) with "park" in E3.
  change (radius_of Park) with (r_park (radii default_cfg)) in E3.
  rewrite E3 in S.
  destruct (find_places_nearby_searches lat lng Gym gmaps (((h ++ s1) ++ s2) ++ s3))
    as (s4 & E4 & F4 & B4).
  change (place_type_of Gym) with "gym" in E4.
  change (radius_of Gym) with (r_gym (radii default_cfg)) in E4.
  rewrite E4 in S.
  destruct (find_places_nearby_searches lat lng School gmaps
              ((((h ++ s1) ++ s2) ++ s3) ++ s4)) as (s5 & E5 & F5 & B5).
  change (place_type_of School) with "school" in E5.
  change (radius_of School) with (r_school (radii default_cfg)) in E5.
  rewrite E5 in S.
  destruct (find_places_nearby_searches lat lng Hospital gmaps
              (((((h ++ s1) ++ s2) ++ s3) ++ s4) ++ s5)) as (s6 & E6 & F6 & B6).
  change (place_type_of Hospital) with "hospital" in E6.
  change (radius_of Hospital) with (r_hospital (radii default_cfg)) in E6.
  rewrite E6 in S.
  destruct (find_nearest_place_searches lat lng "hospital" gmaps
              ((((((h ++ s1) ++ s2) ++ s3) ++ s4) ++ s5) ++ s6) (or_introl eq_refl))
    as (s7 & E7 & F7 & B7).
  rewrite E7 in S.
  destruct (find_places_nearby_searches lat lng Pharmacy gmaps
              (((((((h ++ s1) ++ s2) ++ s3) ++ s4) ++ s5) ++ s6) ++ s7))
    as (s8 & E8 & F8 & B8).
  change (place_type_of Pharmacy) with "pharmacy" in E8.
  change (radius_of Pharmacy) with (r_pharmacy (radii default_cfg)) in E8.
  rewrite E8 in S.
  destruct (find_places_nearby_searches lat lng SubwayStation gmaps
              ((((((((h ++ s1) ++ s2) ++ s3) ++ s4) ++ s5) ++ s6) ++ s7) ++ s8))
    as (s9 & E9 & F9 & B9).
  change (place_type_of SubwayStation) with "subway_station" in E9.
  change (radius_of SubwayStation) with (r_subway_station (radii default_cfg)) in E9.
  rewrite E9 in S.
  destruct (find_nearest_place_searches lat lng "subway_station" gmaps
              (((((((((h ++ s1) ++ s2) ++ s3) ++ s4) ++ s5) ++ s6) ++ s7) ++ s8) ++ s9)
              (or_intror eq_refl))
    as (s10 & E10 & F10 & B10).
  rewrite E10 in S. simpl in S. rewrite <- !app_assoc in S.
  apply app_inv_head in S. subst new.
  split.
  2:{ intros c.
      assert (L : forall t s, Forall (proximity_event t) s -> searches lat lng 1 2 s ->
                              (len (proximity_calls t s) <= 2)%nat).
      { intros t s F (_ & L & _). rewrite (proximity_calls_segment _ _ F). lia. }
      destruct c; cbn [place_type_of]; vanish;
        first [ apply L; assumption | unfold len; simpl; lia ]. }
  exact (searches_app _ _ _ _ _ _ _ _ B1
          (searches_app _ _ _ _ _ _ _ _ B2
            (searches_app _ _ _ _ _ _ _ _ B3
              (searches_app _ _ _ _ _ _ _ _ B4
                (searches_app _ _ _ _ _ _ _ _ B5
                  (searches_app _ _ _ _ _ _ _ _ B6
                    (searches_app _ _ _ _ _ _ _ _ B7
                      (searches_app _ _ _ _ _ _ _ _ B8
                        (searches_app _ _ _ _ _ _ _ _ B9 B10))))))))).
Qed.

Lemma get_neighborhood_insights_success_searches googlemaps address api_key h i new :
  get_neighborhood_insights googlemaps address api_key h
  = (Ok (Success i), h ++ new) ->
  exists gmaps geo rest,
    Client googlemaps api_key = Ok gmaps /\
    geo_of_outcome (geocode gmaps h address "tr") = Some geo /\
    new = EvGeocode address "tr" (geocode gmaps h address "tr") :: rest /\
    i = assemble address geo (queries_of_trace rest) /\
    searches (lat geo) (lng geo) 10 18 rest /\
    forall c, (len (proximity_calls (place_type_of c) rest) <= 2)%nat.
Proof.
  rewrite get_neighborhood_insights_eq.
  destruct (Client googlemaps api_key) as [gmaps|e]; [|discriminate].
  rewrite geocode_address_spec.
  destruct (geo_of_outcome (geocode gmaps h address "tr")) as [geo|] eqn:Egeo;
    [|discriminate].
  destruct (run_queries_searches gmaps (lat geo) (lng geo)
              (h ++ [EvGeocode address "tr" (geocode gmaps h address "tr")]))
    as (rest & E & B & P).
  rewrite E. intros [= <- Hh]. rewrite <- app_assoc in Hh.
  apply app_inv_head in Hh. subst new.
  exists gmaps, geo, rest. auto 10.
Qed.

(** X7.  A successful run geocodes once, first and with region ["tr"],
    then issues between 10 and 18 [places_nearby] requests, and sleeps two
    seconds for each request beyond the tenth, 16 seconds at most. *)
Theorem run_request_budget googlemaps address api_key h i new :
  get_neighborhood_insights googlemaps address api_key h
  = (Ok (Success i), h ++ new) ->
  (exists out rest,
      new = EvGeocode address "tr" out :: rest /\ geocode_calls rest = []) /\
  (10 <= len (nearby_calls new) <= 18)%nat /\
  sleep_total new = 2 * (Z.of_nat (len (nearby_calls new)) - 10) /\
  sleep_total new <= 16.
Proof.
  intros H.
  destruct (get_neighborhood_insights_success_searches _ _ _ _ _ _ H)
    as (gmaps & geo & rest & _ & _ & -> & _ & (G & L & S & _) & _).
  split; [eexists _, rest; split; [reflexivity|exact G]|].
  change (nearby_calls (EvGeocode address "tr" (geocode gmaps h address "tr") :: rest))
    with (nearby_calls rest).
  change (sleep_total (EvGeocode address "tr" (geocode gmaps h address "tr") :: rest))
    with (sleep_total rest).
  rewrite S. unfold len in *. split; [lia|]. split; lia.
Qed.

(** X8.  Every [places_nearby] request of a successful run is made at
    the reported coordinates and is either a proximity request of one of the
    eight categories within the radius of [default_cfg], or the
    distance-ranked request for the hospital or the subway station. *)
Theorem run_requests_follow_the_plan googlemaps address api_key h i new :
  get_neighborhood_insights googlemaps address api_key h
  = (Ok (Success i), h ++ new) ->
  Forall (fun c => planned_request (fst (i_coordinates i)) (snd (i_coordinates i))
                     (fst c))
    (nearby_calls new).
Proof.
  intros H.
  destruct (get_neighborhood_insights_success_searches _ _ _ _ _ _ H)
    as (gmaps & geo & rest & _ & _ & -> & -> & (_ & _ & _ & P) & _).
  exact P.
Qed.

Section PlacesDown.
Variable gmaps : client.
Hypothesis Hsilent : forall h req, silent (places_nearby gmaps h req).

Lemma pagination_silent latitude longitude place_type radius remaining :
  forall response h,
    match fst (pagination gmaps latitude longitude place_type radius remaining
                 response [] h) with
    | Ok all => all = []
    | Raise _ => True
    end.
Proof.
  induction remaining as [|remaining' IH]; intros response h.
  - simpl. destruct (next_page_token response); reflexivity.
  - simpl. destruct (next_page_token response) as [token|]; [|reflexivity].
    unfold bind, sleep, call_places_nearby. simpl.
    pose proof (Hsilent (h ++ [EvSleep 2])
                  (page_request latitude longitude place_type radius (Some token)))
      as Hs.
    destruct (places_nearby gmaps (h ++ [EvSleep 2]) _) as [response'|msg];
      [|exact I].
    simpl in Hs. rewrite Hs. apply IH.
Qed.

Lemma find_places_nearby_silent latitude longitude place_type radius max_pages h :
  fst (find_places_nearby latitude longitude place_type gmaps radius max_pages h)
  = Ok [].
Proof.
  unfold find_places_nearby, try_except, bind, call_places_nearby.
  pose proof (Hsilent h (page_request latitude longitude place_type radius None))
    as Hs.
  destruct (places_nearby gmaps h _) as [response|msg]; [|reflexivity].
  simpl in Hs. rewrite Hs. simpl app.
  pose proof (pagination_silent latitude longitude place_type radius
                (Z.to_nat (max_pages - 1)) response
                (h ++ [EvNearby (page_request latitude longitude place_type radius
                                   None) (Ok response)])) as P.
  destruct (pagination _ _ _ _ _ _ _ _ _) as [[all|msg] h']; simpl in P;
    [subst all|]; reflexivity.
Qed.

Lemma find_nearest_place_silent latitude longitude place_type h :
  fst (find_nearest_place latitude longitude place_type gmaps h) = Ok None.
Proof.
  unfold find_nearest_place, try_except, bind, call_places_nearby.
  match goal with
  | |- context [places_nearby gmaps h ?r] => pose proof (Hsilent h r) as Hs
  end.
  destruct (places_nearby gmaps h _) as [response|msg]; [|reflexivity].
  simpl in Hs. rewrite Hs. reflexivity.
Qed.

Lemma run_queries_silent lat lng h :
  fst (run_queries gmaps lat lng h)
  = Ok {| q_cafes := []; q_malls := []; q_parks := []; q_gyms := [];
          q_schools := []; q_hospitals := []; q_hospital_nearest := None;
          q_pharmacies := []; q_metros := []; q_metro_nearest := None |}.
Proof.
  unfold run_queries, bind. cbv zeta.
  repeat match goal with
    | |- context [find_places_nearby ?a ?b ?t gmaps ?r ?m ?k] =>
        let E := fresh "E" in
        pose proof (find_places_nearby_silent a b t r m k) as E;
        destruct (find_places_nearby a b t gmaps r m k) as [? ?];
        simpl in E; subst
    | |- context [find_nearest_place ?a ?b ?t gmaps ?k] =>
        let E := fresh "E" in
        pose proof (find_nearest_place_silent a b t k) as E;
        destruct (find_nearest_place a b t gmaps k) as [? ?];
        simpl in E; subst
    end.
  reflexivity.
Qed.
End PlacesDown.

(** X6.  When the client is built and the first geocoding hit carries its
    location and formatted address, an outage of the places search (every
    request raises or returns no results) still gives a success report: the
    query echoed, the address and coordinates of the first hit, the source
    ["google"], and every section with count 0, an empty list and no
    nearest place. *)
Theorem places_outage_still_reports_success googlemaps address api_key gmaps
  hit others h :
  Client googlemaps api_key = Ok gmaps ->
  geocode gmaps h address "tr" = Ok (hit :: others) ->
  (forall h0 req, silent (places_nearby gmaps h0 req)) ->
  exists i new,
    get_neighborhood_insights googlemaps address api_key h
    = (Ok (Success i), h ++ new) /\
    i_query i = address /\
    i_address i = hit_formatted_address hit /\
    i_coordinates i = (hit_lat hit, hit_lng hit) /\
    i_source i = "google" /\
    (forall c, section_count i c = 0%nat /\ section_items i c = []) /\
    h_nearest (hospitals (family_life i)) = None /\
    s_nearest (subway (transport i)) = None /\
    cafes_top (highlights (summary i)) = [].
Proof.
  intros HC Hg Hsilent.
  destruct (get_neighborhood_insights_total googlemaps address api_key h)
    as (r & new & E).
  pose proof E as E'.
  rewrite get_neighborhood_insights_eq, HC, geocode_address_spec, Hg in E'.
  cbn [geo_of_outcome] in E'.
  match type of E' with
  | context [run_queries ?g ?a ?b ?k] =>
      pose proof (run_queries_silent g Hsilent a b k) as Q;
      destruct (run_queries g a b k) as [o k']
  end.
  simpl in Q. subst o. injection E' as <- _.
  eexists _, new. split; [exact E|].
  repeat (split; [reflexivity|]).
  split; [intros c; destruct c; split; reflexivity|].
  repeat split.
Qed.

(** X5.  When [googlemaps.Client] raises, [get_neighborhood_insights]
    returns the failure dict with the exception's message and the query
    without any provider call, and [handler] answers it with status 200. *)
Theorem client_failure_is_reported googlemaps api_key address request e h :
  method request = "POST" ->
  api_key <> "" ->
  get_json request = Ok (DataDict (Present address)) ->
  address <> "" ->
  Client googlemaps api_key = Raise e ->
  get_neighborhood_insights googlemaps address api_key h
  = (Ok (Failure ("Failed to initialize Google Maps client: " +++ e) address), h) /\
  handler googlemaps (Some api_key) request h
  = (Ok {| statusCode := 200;
           headers := cors_json_headers;
           body := JDict [("ok", JBool false);
                          ("error",
                            JStr ("Failed to initialize Google Maps client: " +++ e));
                          ("query", JStr address)] |}, h).
Proof.
  intros Hm Hk Hj Ha HC.
  assert (E : get_neighborhood_insights googlemaps address api_key h
              = (Ok (Failure ("Failed to initialize Google Maps client: " +++ e)
                       address), h))
    by (rewrite get_neighborhood_insights_eq, HC; reflexivity).
  split; [exact E|].
  unfold handler, try_except. rewrite Hm, Hj. simpl.
  apply String.eqb_neq in Hk, Ha. rewrite Hk. unfold bind. simpl. rewrite Ha.
  rewrite E. reflexivity.
Qed.

Lemma slice_to_slice_to {A} n m (l : list A) :
  (n <= m)%nat -> slice_to n (slice_to m l) = slice_to n l.
Proof.
  intros H. unfold slice_to. rewrite firstn_firstn, Nat.min_l by exact H.
  reflexivity.
Qed.

(** X10.  The highlights of the summary are the names of the first three
    records of the cafes, schools and malls [top] lists, at most three each,
    and its nearest hospital and subway are the [nearest] fields of those
    sections. *)
Theorem highlights_are_section_heads googlemaps address api_key h i new :
  get_neighborhood_insights googlemaps address api_key h
  = (Ok (Success i), h ++ new) ->
  let hl := highlights (summary i) in
  cafes_top hl = map name (slice_to 3 (top (cafes (social_life i)))) /\
  schools_top hl = map name (slice_to 3 (top (schools (family_life i)))) /\
  malls_top hl = map name (slice_to 3 (top (shopping_malls (social_life i)))) /\
  nearest_hospital hl = h_nearest (hospitals (family_life i)) /\
  nearest_subway hl = s_nearest (subway (transport i)) /\
  (len (cafes_top hl) <= 3 /\ len (schools_top hl) <= 3 /\
   len (malls_top hl) <= 3)%nat.
Proof.
  intros H hl. subst hl.
  apply get_neighborhood_insights_success in H.
  destruct H as (g & geo & n & _ & _ & _ & ->).
  cbn [assemble highlights summary cafes_top schools_top malls_top
       nearest_hospital nearest_subway social_life family_life transport
       cafes schools shopping_malls hospitals subway top h_nearest s_nearest
       top_n default_cfg].
  unfold summarize_list.
  rewrite !slice_to_slice_to by lia.
  repeat split; unfold len; rewrite List.length_map;
    apply firstn_le_length.
Qed.

(** X11.  The headline is built from the reported address and the
    [count] fields of the cafes, parks, gyms, schools, hospitals and malls
    sections, the malls one being the count after the tag filter. *)
Theorem headline_repeats_the_counts googlemaps address api_key h i new :
  get_neighborhood_insights googlemaps address api_key h
  = (Ok (Success i), h ++ new) ->
  headline (summary i)
  = i_address i +++ ": "
    +++ str_of_nat (section_count i Cafe) +++ " cafes, "
    +++ str_of_nat (section_count i Park) +++ " parks, "
    +++ str_of_nat (section_count i Gym) +++ " gyms, "
    +++ str_of_nat (section_count i School) +++ " schools, "
    +++ str_of_nat (section_count i Hospital) +++ " hospitals, "
    +++ str_of_nat (section_count i ShoppingMall) +++ " malls nearby.".
Proof.
  intros H.
  apply get_neighborhood_insights_success in H.
  destruct H as (g & geo & n & _ & _ & _ & ->). reflexivity.
Qed.

Lemma proximity_calls_incl t h c :
  In c (proximity_calls t h) -> In c (nearby_calls h).
Proof.
  induction h as [|e h IH]; [intros []|].
  change (e :: h) with ([e] ++ h).
  rewrite proximity_calls_app, nearby_calls_app, !in_app_iff.
  intros [H | H]; [left | right; exact (IH H)].
  destruct e as [| req out |]; simpl in *; try contradiction.
  destruct (_ && _); [exact H | destruct H].
Qed.

(** X9.  When no response of the run carries more than [page_size]
    results, no section's count exceeds [2 * page_size]. *)
Theorem counts_fit_in_two_pages googlemaps address api_key h i new
  (page_size : nat) :
  get_neighborhood_insights googlemaps address api_key h
  = (Ok (Success i), h ++ new) ->
  (forall req response,
      In (req, Ok response) (nearby_calls new) ->
      (len (results response) <= page_size)%nat) ->
  forall c, (section_count i c <= 2 * page_size)%nat.
Proof.
  intros H Hsize c.
  destruct (get_neighborhood_insights_success_searches _ _ _ _ _ _ H)
    as (gmaps & geo & rest & _ & _ & -> & -> & _ & P).
  assert (B : (len (provider_list (place_type_of c) rest) <= 2 * page_size)%nat).
  { pose proof (provider_list_length (place_type_of c) rest) as L.
    pose proof (payload_bound (proximity_calls (place_type_of c) rest) page_size) as Pb.
    specialize (P c).
    assert (len (payload (proximity_calls (place_type_of c) rest))
            <= page_size * len (proximity_calls (place_type_of c) rest))%nat.
    { apply Pb. intros req response Hin. apply (Hsize req response).
      apply proximity_calls_incl in Hin. exact Hin. }
    nia. }
  destruct c; cbn [section_count assemble social_life family_life transport
                   cafes shopping_malls parks gyms schools hospitals pharmacies
                   subway count h_count s_count queries_of_trace q_cafes q_malls
                   q_parks q_gyms q_schools q_hospitals q_pharmacies q_metros];
    cbn [place_type_of] in B; try exact B.
  unfold len in *. pose proof (filter_length_le is_mall
                                 (provider_list "shopping_mall" rest)). lia.
Qed.

(** ** Ranked sections *)

Lemma StronglySorted_app_inv {A} (R : A -> A -> Prop) l1 l2 :
  StronglySorted R (l1 ++ l2) ->
  StronglySorted R l1 /\ StronglySorted R l2 /\
  forall a b, In a l1 -> In b l2 -> R a b.
Proof.
  induction l1 as [|x l1 IH]; simpl; intros H.
  - split; [constructor|]. split; [exact H|]. intros a b [].
  - inversion H as [|? ? Hs Hall]; subst.
    destruct (IH Hs) as (S1 & S2 & C).
    apply Forall_app in Hall. destruct Hall as [H1 H2].
    split; [constructor; assumption|]. split; [exact S2|].
    intros a b [<- | Ha] Hb.
    + rewrite Forall_forall in H2. apply H2, Hb.
    + apply C; assumption.
Qed.

Section SortedFixpoint.
Context {A K : Type} (key : A -> K) (lt : K -> K -> bool).

Lemma stable_sort_sorted_id l :
  StronglySorted (fun a b => lt (key b) (key a) = false) l ->
  stable_sort key lt l = l.
Proof.
  induction 1 as [|x l Hs IH Hall]; [reflexivity|].
  simpl. rewrite IH. destruct l as [|y l']; [reflexivity|].
  simpl. inversion Hall as [|? ? Hy _]; subst. rewrite Hy. reflexivity.
Qed.
End SortedFixpoint.

Lemma rank_of_ranked l :
  StronglySorted (fun x y => key_le (safe_sort_key y) (safe_sort_key x)) l ->
  rank l = l.
Proof.
  intros H. unfold rank, sorted.
  rewrite stable_sort_sorted_id; [apply rev_involutive|].
  apply (StronglySorted_rev
           (fun x y => key_lt (safe_sort_key x) (safe_sort_key y) = false)).
  eapply StronglySorted_impl; [|exact H].
  intros a b. apply key_lt_false_le.
Qed.

(** X13.  Ranking a ranked list changes nothing: [rank] is idempotent,
    and a list already in descending key order is returned as it is. *)
Theorem rank_keeps_a_ranked_list (records : list place) :
  rank (rank records) = rank records /\
  (StronglySorted (fun x y => key_le (safe_sort_key y) (safe_sort_key x)) records ->
   rank records = records).
Proof.
  split; [apply rank_of_ranked, rank_descending | apply rank_of_ranked].
Qed.

(** X12.  For a ranked category the section's list and the records left
    out are together the category's (filtered) result list; the list is in
    descending key order and no record left out has a greater key than a
    record of the list. *)
Theorem ranked_top_holds_the_best googlemaps address api_key h i new (c : category) :
  get_neighborhood_insights googlemaps address api_key h
  = (Ok (Success i), h ++ new) ->
  is_ranked c = true ->
  exists rest,
    Permutation (section_items i c ++ rest)
      (post_filter c (provider_list (place_type_of c) new)) /\
    StronglySorted (fun x y => key_le (safe_sort_key y) (safe_sort_key x))
      (section_items i c) /\
    forall x y, In x (section_items i c) -> In y rest ->
                key_le (safe_sort_key y) (safe_sort_key x).
Proof.
  intros H Hr.
  apply get_neighborhood_insights_success in H.
  destruct H as (g & geo & n & _ & _ & En & ->).
  apply app_inv_head in En. subst n.
  set (l := post_filter c (provider_list (place_type_of c) new)).
  assert (E : section_items (assemble address geo (queries_of_trace new)) c
              = firstn 5 (rank l))
    by (destruct c; try discriminate Hr; reflexivity).
  rewrite E. exists (skipn 5 (rank l)).
  pose proof (rank_descending l) as S.
  rewrite <- (firstn_skipn 5 (rank l)) in S.
  apply StronglySorted_app_inv in S. destruct S as (S1 & _ & C).
  split; [rewrite firstn_skipn; apply rank_perm|].
  split; [exact S1|]. intros x y Hx Hy. apply C; assumption.
Qed.

(** ** The properties on the sample runs *)

Lemma malformed_element_empties_the_list_witness :
  In RawOther
    (payload (nearby_calls
       (snd (find_places_nearby (41 # 1) (29 # 1) "cafe" junk_client 1000 2 [])))) /\
  fst (find_places_nearby (41 # 1) (29 # 1) "cafe" junk_client 1000 2 []) = Ok [].
Proof.
  assert (H : In RawOther
                (payload (nearby_calls
                   (snd (find_places_nearby (41 # 1) (29 # 1) "cafe" junk_client
                           1000 2 [])))))
    by (vm_compute; tauto).
  split; [exact H|].
  destruct (find_places_nearby (41 # 1) (29 # 1) "cafe" junk_client 1000 2 [])
    as [[places|msg] new] eqn:E; [|vm_compute in E; discriminate E].
  rewrite (malformed_element_empties_the_list (41 # 1) (29 # 1) "cafe" junk_client
             1000 2 [] places new E H).
  reflexivity.
Defined.

Lemma well_formed_pages_are_kept_in_order_witness :
  exists places new,
    find_places_nearby (41 # 1) (29 # 1) "cafe" sample_client 1000 2 []
    = (Ok places, [] ++ new) /\
    map normalize (payload (nearby_calls new)) = map Ok places /\
    len places = 6%nat.
Proof.
  eexists _, _. split; [vm_compute; reflexivity|].
  destruct (well_formed_pages_are_kept_in_order (41 # 1) (29 # 1) "cafe"
              sample_client 1000 2 [] _ _ ltac:(vm_compute; reflexivity)
              ltac:(vm_compute; reflexivity)
              ltac:(vm_compute; intuition discriminate)) as (A & B).
  split; [exact A|]. rewrite B. vm_compute. reflexivity.
Defined.

Lemma handler_checks_in_order_witness :
  handler (module_of sample_client) None
    {| method := "GET"; get_json := Raise "no body" |} []
  = (Ok (error_response 405 "Method not allowed. Use POST."), []) /\
  handler (module_of sample_client) None
    {| method := "POST"; get_json := Raise "no body" |} []
  = (Ok (error_response 500 "GOOGLE_MAPS_API_KEY not set"), []) /\
  handler (module_of sample_client) (Some "AIza-key")
    {| method := "POST"; get_json := Raise "no body" |} []
  = (Ok (error_response 400 "Invalid JSON"), []) /\
  handler (module_of sample_client) (Some "AIza-key")
    {| method := "POST";
       get_json := Ok (DataOther "'list' object has no attribute 'get'") |} []
  = (Ok (error_response 500 "'list' object has no attribute 'get'"), []) /\
  handler (module_of sample_client) (Some "AIza-key")
    {| method := "POST"; get_json := Ok (DataDict Null) |} []
  = (Ok (error_response 400 "Address is required"), []).
Proof.
  split; [|split; [|split; [|split]]].
  - destruct (handler_checks_in_order (module_of sample_client) None
                {| method := "GET"; get_json := Raise "no body" |} [])
      as (A & _). apply A; discriminate.
  - destruct (handler_checks_in_order (module_of sample_client) None
                {| method := "POST"; get_json := Raise "no body" |} [])
      as (_ & B & _). apply B; reflexivity.
  - destruct (handler_checks_in_order (module_of sample_client) (Some "AIza-key")
                {| method := "POST"; get_json := Raise "no body" |} [])
      as (_ & _ & C & _). apply (C eq_refl eq_refl "no body"). reflexivity.
  - destruct (handler_checks_in_order (module_of sample_client) (Some "AIza-key")
                {| method := "POST";
                   get_json := Ok (DataOther "'list' object has no attribute 'get'") |}
                [])
      as (_ & _ & _ & D & _). apply (D eq_refl eq_refl). reflexivity.
  - destruct (handler_checks_in_order (module_of sample_client) (Some "AIza-key")
                {| method := "POST"; get_json := Ok (DataDict Null) |} [])
      as (_ & _ & _ & _ & E). apply (E eq_refl eq_refl Null); reflexivity.
Defined.

Lemma failed_geocoding_is_answered_200_witness :
  handler (module_of sample_client) (Some "AIza-key")
    {| method := "POST"; get_json := Ok (DataDict (Present "Atlantis")) |} []
  = (Ok {| statusCode := 200;
           headers := cors_json_headers;
           body := JDict [("ok", JBool false);
                          ("error",
                            JStr ("Could not geocode the address: " +++ "Atlantis"));
                          ("query", JStr "Atlantis")] |},
     [] ++ [EvGeocode "Atlantis" "tr" (Ok [])]).
Proof.
  apply (failed_geocoding_is_answered_200 (module_of sample_client) "AIza-key"
           "Atlantis" sample_client
           {| method := "POST"; get_json := Ok (DataDict (Present "Atlantis")) |} []);
    first [reflexivity | discriminate | left; reflexivity].
Defined.

Lemma client_failure_is_reported_witness :
  handler broken_module (Some "secret") kadikoy_post []
  = (Ok {| statusCode := 200;
           headers := cors_json_headers;
           body := JDict [("ok", JBool false);
                          ("error",
                            JStr ("Failed to initialize Google Maps client: "
                                  +++ "Invalid API key provided."));
                          ("query", JStr "Kadikoy")] |}, []).
Proof.
  apply (client_failure_is_reported broken_module "secret" "Kadikoy" kadikoy_post
           "Invalid API key provided." []);
    first [reflexivity | discriminate].
Defined.

Lemma places_outage_still_reports_success_witness :
  exists i new,
    get_neighborhood_insights (module_of places_down) "Kadikoy" "AIza-key" []
    = (Ok (Success i), [] ++ new) /\
    i_address i = "Kadikoy, Istanbul" /\
    section_count i Cafe = 0%nat /\
    len (nearby_calls new) = 10%nat.
Proof.
  destruct (places_outage_still_reports_success (module_of places_down) "Kadikoy"
              "AIza-key" places_down
              {| hit_lat := (41 # 1)%Q; hit_lng := (29 # 1)%Q;
                 hit_formatted_address := "Kadikoy, Istanbul" |} [] []
              eq_refl eq_refl (fun _ _ => I))
    as (i & new & E & _ & A & _ & _ & C & _).
  exists i, new. split; [exact E|]. split; [exact A|]. split; [apply C|].
  assert (N : snd (get_neighborhood_insights (module_of places_down) "Kadikoy"
                     "AIza-key" []) = [] ++ new) by (rewrite E; reflexivity).
  simpl in N. rewrite <- N. vm_compute. reflexivity.
Defined.

Lemma run_request_budget_witness :
  len (nearby_calls (sample_trace sample_client)) = 17%nat /\
  sleep_total (sample_trace sample_client) = 14 /\
  sleep_total (sample_trace sample_client)
  = 2 * (Z.of_nat (len (nearby_calls (sample_trace sample_client))) - 10).
Proof.
  split; [vm_compute; reflexivity|]. split; [vm_compute; reflexivity|].
  apply (run_request_budget (module_of sample_client) "Kadikoy" "AIza-key" []
           (sample_report sample_client) (sample_trace sample_client)
           ltac:(vm_compute; reflexivity)).
Defined.

Lemma run_requests_follow_the_plan_witness :
  Forall (fun c => planned_request (41 # 1) (29 # 1) (fst c))
    (nearby_calls (sample_trace sample_client)).
Proof.
  exact (run_requests_follow_the_plan (module_of sample_client) "Kadikoy"
           "AIza-key" [] (sample_report sample_client)
           (sample_trace sample_client) ltac:(vm_compute; reflexivity)).
Defined.

Lemma counts_fit_in_two_pages_witness :
  (section_count (sample_report sample_client) Cafe <= 2 * 3)%nat /\
  section_count (sample_report sample_client) Cafe = 6%nat.
Proof.
  split; [|vm_compute; reflexivity].
  apply (counts_fit_in_two_pages (module_of sample_client) "Kadikoy" "AIza-key" []
           (sample_report sample_client) (sample_trace sample_client) 3
           ltac:(vm_compute; reflexivity)).
  intros req response Hin.
  assert (F : forallb (fun c => match snd c with
                                | Ok r => Nat.leb (len (results r)) 3
                                | Raise _ => true
                                end)
                (nearby_calls (sample_trace sample_client)) = true)
    by (vm_compute; reflexivity).
  rewrite forallb_forall in F. specialize (F _ Hin). simpl in F.
  apply Nat.leb_le. exact F.
Defined.

Lemma highlights_are_section_heads_witness :
  cafes_top (highlights (summary (sample_report sample_client)))
  = [Some "Gama"; Some "Gama"; Some "Alfa"] /\
  cafes_top (highlights (summary (sample_report sample_client)))
  = map name (slice_to 3 (top (cafes (social_life (sample_report sample_client))))).
Proof.
  split; [vm_compute; reflexivity|].
  apply (highlights_are_section_heads (module_of sample_client) "Kadikoy"
           "AIza-key" [] (sample_report sample_client)
           (sample_trace sample_client) ltac:(vm_compute; reflexivity)).
Defined.

Lemma headline_repeats_the_counts_witness :
  headline (summary (sample_report sample_client))
  = "Kadikoy, Istanbul: 6 cafes, 6 parks, 6 gyms, 6 schools, 6 hospitals, 1 malls nearby.".
Proof.
  rewrite (headline_repeats_the_counts (module_of sample_client) "Kadikoy"
             "AIza-key" [] (sample_report sample_client)
             (sample_trace sample_client) ltac:(vm_compute; reflexivity)).
  vm_compute. reflexivity.
Defined.

Lemma ranked_top_holds_the_best_witness :
  exists rest,
    Permutation (section_items (sample_report sample_client) Cafe ++ rest)
      (post_filter Cafe (provider_list "cafe" (sample_trace sample_client))) /\
    forall x y, In x (section_items (sample_report sample_client) Cafe) ->
                In y rest -> key_le (safe_sort_key y) (safe_sort_key x).
Proof.
  destruct (ranked_top_holds_the_best (module_of sample_client) "Kadikoy"
              "AIza-key" [] (sample_report sample_client)
              (sample_trace sample_client) Cafe ltac:(vm_compute; reflexivity)
              eq_refl) as (rest & P & _ & C).
  exists rest. split; [exact P|exact C].
Defined.

Lemma rank_keeps_a_ranked_list_witness :
  rank [beta] = [beta].
Proof.
  apply (rank_keeps_a_ranked_list [beta]). repeat constructor.
Defined.
